(** * AwsBedrockRuntimeHandler: request construction and stream decoding

    A shallow embedding of [src/api/providers/bedrock-runtime.ts].

    The handler is written in TypeScript over untyped data ([any]): the
    frames of the response stream are whatever [JSON.parse] returns and the
    content blocks are whatever the caller passes.  The embedding therefore
    keeps JavaScript values as they are at run time (with truthiness, [||],
    [?.], [===], template-literal string conversion and [JSON.stringify]
    dropping [undefined] properties) and expresses the async generator
    [createMessage] in a small monad that records the events yielded so far
    and how the generator completes (returns or throws).

    Conventions of the model:
    - numbers are the integer-valued ones ([Z]); token counts are integers;
      how the runtime prints a number ([Number::toString]) is left open, as a
      parameter of the model ([Runtime]): nothing proved here depends on it;
    - objects are plain objects (their prototype is [Object.prototype]) and
      hold data only, no functions;
    - strings are byte strings, [toLowerCase] maps the ASCII letters;
    - whatever is thrown is an [Error] object with a string [message];
    - a chunk of the response stream carries, instead of its raw bytes, what
      [JSON.parse (new TextDecoder().decode bytes)] makes of them ([bytes],
      a [Uint8Array], is truthy whenever it is there);
    - the body of the command is the JSON document that the text produced by
      [JSON.stringify] denotes;
    - the catalog [bedrockModels] is a plain object too: [in] and a property
      read reach the members of [Object.prototype];
    - the generator is run to completion by its consumer; [console.error]
      writes to the console only and is left out. *)

From Stdlib Require Import ZArith String Ascii List Bool Lia DecimalString.
From stdpp Require Import base option list strings gmap.

#[local] Set Warnings "-register-all".
#[local] Open Scope Z_scope.

(** ** JavaScript values *)

Module JS.

Inductive value : Type :=
| JUndefined
| JNull
| JBool (b : bool)
| JNum (n : Z)
| JStr (s : string)
| JArr (elems : list value)
| JObj (props : list (string * value)).

(** A thrown [Error] object; the handler only ever reads [error.message]. *)
Record Error : Type := new_Error { message : string }.

(** How an evaluation completes. *)
Inductive completion (A : Type) : Type :=
| Normal (a : A)
| Throw (e : Error).
Arguments Normal {A} a.
Arguments Throw {A} e.

#[global] Instance completion_ret : MRet completion := fun _ a => Normal a.
#[global] Instance completion_bind : MBind completion := fun _ _ f m =>
  match m with
  | Normal a => f a
  | Throw e => Throw e
  end.

(** ToBoolean *)
Definition truthy (v : value) : bool :=
  match v with
  | JUndefined | JNull => false
  | JBool b => b
  | JNum n => negb (n =? 0)
  | JStr EmptyString => false
  | JStr (String _ _) => true
  | JArr _ | JObj _ => true
  end.

(** [a || b] *)
Definition or_else (a b : value) : value := if truthy a then a else b.

(** [v === "s"] for a string literal [s], as the [switch] statements use it. *)
Definition is_string (v : value) (s : string) : bool :=
  match v with
  | JStr t => String.eqb t s
  | _ => false
  end.

Definition nullish (v : value) : bool :=
  match v with
  | JUndefined | JNull => true
  | _ => false
  end.

(** Own properties of an object, first binding of the key. *)
Fixpoint own (props : list (string * value)) (k : string) : option value :=
  match props with
  | [] => None
  | (k', v) :: rest => if String.eqb k' k then Some v else own rest k
  end.

(** [v.k] where it cannot throw: [undefined] for a missing property and for
    the primitives and arrays (none of the property names this handler reads
    is defined on their prototypes). *)
Definition prop (v : value) (k : string) : value :=
  match v with
  | JObj props => default JUndefined (own props k)
  | _ => JUndefined
  end.

Definition TypeError_read (v : value) (k : string) : Error :=
  new_Error ("Cannot read properties of "
             +:+ (match v with JNull => "null" | _ => "undefined" end)
             +:+ " (reading '" +:+ k +:+ "')").

(** [v.k]: reading a property of [null] or [undefined] throws a TypeError. *)
Definition get (v : value) (k : string) : completion value :=
  if nullish v then Throw (TypeError_read v k) else Normal (prop v k).

(** [v?.k] *)
Definition get_opt (v : value) (k : string) : value :=
  if nullish v then JUndefined else prop v k.

(** [obj[k] = v]: an existing key keeps its place, a new one goes last. *)
Fixpoint set_prop (props : list (string * value)) (k : string) (v : value)
  : list (string * value) :=
  match props with
  | [] => [(k, v)]
  | (k', v') :: rest =>
      if String.eqb k' k then (k, v) :: rest else (k', v') :: set_prop rest k v
  end.

(** [Object.assign(target, source)] *)
Definition Object_assign (target source : list (string * value))
  : list (string * value) :=
  fold_left (fun acc kv => set_prop acc kv.1 kv.2) source target.

Definition string_of_Z (n : Z) : string := NilZero.string_of_int (Z.to_int n).

(** What the model leaves open of the runtime: [Number::toString], the
    string a number is printed as. *)
Class Runtime : Type := { Number_toString : Z -> string }.

(** The runtime that prints the decimal numeral (as JavaScript does for the
    safe integers), to run the handler on examples. *)
Definition decimal_runtime : Runtime := {| Number_toString := string_of_Z |}.

Definition TypeError_primitive : Error :=
  new_Error "Cannot convert object to primitive value".

(** ToString, as a template literal applies it to [${...}] and [join] to
    the elements of an array.  A plain object is printed by
    [Object.prototype.toString]; when it has a property [toString] of its
    own, that property is data and cannot be called, [valueOf] gives the
    object back, and the conversion throws a TypeError.  An array is printed
    by [join(",")], which converts its elements in order. *)
Fixpoint ToString {runtime : Runtime} (v : value) : completion string :=
  match v with
  | JUndefined => Normal "undefined"
  | JNull => Normal "null"
  | JBool true => Normal "true"
  | JBool false => Normal "false"
  | JNum n => Normal (Number_toString n)
  | JStr s => Normal s
  | JArr elems =>
      parts ← (fix elements (l : list value) : completion (list string) :=
                 match l with
                 | [] => Normal []
                 | x :: rest =>
                     part ← match x with
                            | JUndefined | JNull => Normal ""
                            | _ => ToString x
                            end;
                     parts ← elements rest;
                     mret (part :: parts)
                 end) elems;
      mret (String.concat "," parts)
  | JObj props =>
      match own props "toString" with
      | Some _ => Throw TypeError_primitive
      | None => Normal "[object Object]"
      end
  end.

(** [array.join(sep)]: [undefined] and [null] elements give the empty
    string, the others are converted in order. *)
Definition Array_join {runtime : Runtime} (sep : string) (elems : list value)
  : completion string :=
  parts ← mapM (fun x => if nullish x then Normal "" else ToString x) elems;
  mret (String.concat sep parts).

(** The document [JSON.stringify] writes: a property whose value is
    [undefined] is left out, an [undefined] array element becomes [null]. *)
Fixpoint SerializeJSON (v : value) : value :=
  match v with
  | JArr elems =>
      JArr (map (fun x => match x with
                          | JUndefined => JNull
                          | _ => SerializeJSON x
                          end) elems)
  | JObj props =>
      JObj ((fix members (ps : list (string * value)) :=
               match ps with
               | [] => []
               | (k, x) :: rest =>
                   match x with
                   | JUndefined => members rest
                   | _ => (k, SerializeJSON x) :: members rest
                   end
               end) props)
  | _ => v
  end.

(** [String.prototype.toLowerCase] on ASCII *)
Definition lower_ascii (c : ascii) : ascii :=
  let n := nat_of_ascii c in
  if ((65 <=? n)%nat && (n <=? 90)%nat)%bool then ascii_of_nat (n + 32) else c.

Fixpoint toLowerCase (s : string) : string :=
  match s with
  | EmptyString => EmptyString
  | String c rest => String (lower_ascii c) (toLowerCase rest)
  end.

(** [s.includes(sub)] *)
Fixpoint includes (s sub : string) : bool :=
  String.prefix sub s ||
  match s with
  | EmptyString => false
  | String _ rest => includes rest sub
  end.

(** [s.slice(0, n)] *)
Definition slice0 (n : nat) (s : string) : string := String.substring 0 n s.

End JS.
Import JS.

(** ** The event stream of the generator *)

(** [ApiStreamChunk]: what [createMessage] yields. *)
Inductive ApiStreamChunk : Type :=
| ApiStreamText (text : value)
| ApiStreamUsage (inputTokens outputTokens : value).

(** An async generator run to completion: the chunks it yielded, in order,
    and whether it then returned or threw. *)
Record Gen (A : Type) : Type := mkGen {
  yielded : list ApiStreamChunk;
  outcome : completion A
}.
Arguments mkGen {A} yielded outcome.
Arguments yielded {A} g.
Arguments outcome {A} g.

#[global] Instance Gen_ret : MRet Gen := fun _ a => mkGen [] (Normal a).
#[global] Instance Gen_bind : MBind Gen := fun _ _ f m =>
  match outcome m with
  | Normal a => mkGen (yielded m ++ yielded (f a)) (outcome (f a))
  | Throw e => mkGen (yielded m) (Throw e)
  end.

Definition yield (c : ApiStreamChunk) : Gen unit := mkGen [c] (Normal tt).
Definition throw {A} (e : Error) : Gen A := mkGen [] (Throw e).
Definition eval {A} (c : completion A) : Gen A := mkGen [] c.

(** [try { body } catch (error) { handler error }] *)
Definition try_catch {A} (body : Gen A) (handler : Error -> Gen A) : Gen A :=
  match outcome body with
  | Normal a => body
  | Throw e => mkGen (yielded body ++ yielded (handler e)) (outcome (handler e))
  end.

(** [a.k1.k2...] *)
Fixpoint get_path (v : value) (ks : list string) : completion value :=
  match ks with
  | [] => Normal v
  | k :: rest => v' ← get v k; get_path v' rest
  end.

(** ** The transport's response *)

(** One event of [response.body].  [Bytes r]: the event has [chunk.bytes] and
    [r] is the completion of [JSON.parse(new TextDecoder().decode(bytes))]. *)
Inductive ResponseChunk : Type :=
| NoBytes
| Bytes (parsed : completion value).

(** The async iterable [response.body]: it hands out [chunks] one by one and
    then either ends ([failure = None]) or throws. *)
Record ResponseStream : Type := {
  chunks : list ResponseChunk;
  failure : option Error
}.

Record InvokeModelResponse : Type := { response_body : option ResponseStream }.

(** ** The stream decoder (lines 74-131) *)

Record DecoderState : Type := {
  hasStarted : bool;
  inputTokens : value;
  outputTokens : value
}.

Definition initial : DecoderState :=
  {| hasStarted := false; inputTokens := JNum 0; outputTokens := JNum 0 |}.

(** The [switch (data.type)] of the loop body. *)
Definition on_frame (st : DecoderState) (data : value) : Gen DecoderState :=
  tag ← eval (get data "type");
  if is_string tag "message_start" then
    message ← eval (get data "message");
    if truthy (get_opt message "usage") then
      input_tokens ← eval (get_path data ["message"; "usage"; "input_tokens"]);
      output_tokens ← eval (get_path data ["message"; "usage"; "output_tokens"]);
      let st' := {| hasStarted := hasStarted st;
                    inputTokens := or_else input_tokens (JNum 0);
                    outputTokens := or_else output_tokens (JNum 0) |} in
      yield (ApiStreamUsage (inputTokens st') (outputTokens st'));;
      mret st'
    else mret st
  else if is_string tag "content_block_delta" then
    delta ← eval (get data "delta");
    if truthy (get_opt delta "text") then
      let st' := {| hasStarted := if negb (hasStarted st) then true
                                  else hasStarted st;
                    inputTokens := inputTokens st;
                    outputTokens := outputTokens st |} in
      text ← eval (get_path data ["delta"; "text"]);
      yield (ApiStreamText text);;
      mret st'
    else mret st
  else if is_string tag "message_delta" then
    usage ← eval (get data "usage");
    if truthy (get_opt usage "output_tokens") then
      output_tokens ← eval (get_path data ["usage"; "output_tokens"]);
      let st' := {| hasStarted := hasStarted st;
                    inputTokens := inputTokens st;
                    outputTokens := output_tokens |} in
      yield (ApiStreamUsage (inputTokens st') (outputTokens st'));;
      mret st'
    else mret st
  else if is_string tag "message_stop" then
    yield (ApiStreamUsage (inputTokens st) (outputTokens st));;
    mret st
  else mret st.

(** The loop body: [if (chunk.chunk?.bytes) { const data = JSON.parse(...) ... }] *)
Definition on_chunk (st : DecoderState) (chunk : ResponseChunk)
  : Gen DecoderState :=
  match chunk with
  | NoBytes => mret st
  | Bytes parsed => data ← eval parsed; on_frame st data
  end.

(** [for await (const chunk of response.body) { ... }] *)
Fixpoint for_await (st : DecoderState) (cs : list ResponseChunk)
    (fail : option Error) : Gen DecoderState :=
  match cs with
  | [] => match fail with
          | None => mret st
          | Some e => throw e
          end
  | chunk :: rest => st' ← on_chunk st chunk; for_await st' rest fail
  end.

Definition NoResponseStream : Error := new_Error "No response stream available".
Definition NoContentGenerated : Error :=
  new_Error "No content was generated by the model".

(** The [try] block (lines 68-131), given the completion of
    [await this.client.send(command)]. *)
Definition try_block (sent : completion InvokeModelResponse) : Gen unit :=
  response ← eval sent;
  match response_body response with
  | None => throw NoResponseStream
  | Some stream =>
      st ← for_await initial (chunks stream) (failure stream);
      if negb (hasStarted st) then throw NoContentGenerated else mret tt
  end.

(** The [catch] block (lines 133-145). *)
Definition catch_block (error : Error) : Gen unit :=
  yield (ApiStreamText (JStr ("Error: " +:+ message error)));;
  yield (ApiStreamUsage (JNum 0) (JNum 0));;
  throw error.

(** Lines 68-145: what [createMessage] does with the transport's answer. *)
Definition consume (sent : completion InvokeModelResponse) : Gen unit :=
  try_catch (try_block sent) catch_block.

(** Frames as the backend sends them, for the examples. *)
Definition message_start_frame (input_tokens output_tokens : Z) : value :=
  JObj [("type", JStr "message_start");
        ("message", JObj [("usage", JObj [("input_tokens", JNum input_tokens);
                                           ("output_tokens", JNum output_tokens)])])].
Definition content_block_delta_frame (text : string) : value :=
  JObj [("type", JStr "content_block_delta");
        ("delta", JObj [("text", JStr text)])].
Definition message_delta_frame (output_tokens : Z) : value :=
  JObj [("type", JStr "message_delta");
        ("usage", JObj [("output_tokens", JNum output_tokens)])].
Definition message_stop_frame : value := JObj [("type", JStr "message_stop")].

(** What [send] resolves to when the response has a body: a stream of the
    given chunks that then ends ([fail = None]) or throws. *)
Definition streaming (cs : list ResponseChunk) (fail : option Error)
  : completion InvokeModelResponse :=
  Normal {| response_body := Some {| chunks := cs; failure := fail |} |}.

(** A stream of well-decoded frames that ends normally. *)
Definition frames (fs : list value) : completion InvokeModelResponse :=
  streaming (map (fun f => Bytes (Normal f)) fs) None.

(** ** The content formatter (lines 148-161) *)

(** The callback of [content.map]: one fragment for one block. *)
Definition format_block {runtime : Runtime} (block : value) : completion value :=
  tag ← get block "type";
  if is_string tag "text" then get block "text"
  else if is_string tag "image" then
    source ← get block "source";
    printed ← ToString source;
    mret (JStr ("[Image: " +:+ printed +:+ "]"))
  else if is_string tag "tool_use" then
    name ← get block "name";
    printed ← ToString name;
    mret (JStr ("[Tool: " +:+ printed +:+ "]"))
  else mret (JStr "[Unknown Block]").

(** [content.map(...).join(' ')]: all the callbacks run before the join. *)
Definition formatContent {runtime : Runtime} (content : list value)
  : completion string :=
  fragments ← mapM format_block content;
  Array_join " " fragments.

(** ** Models, options and the request (lines 23-66, 163-189) *)

(** [ModelInfo], as the handler reads it: [info.maxTokens] ([None] when the
    read gives [undefined]) and the truth value of
    [info.supportsPromptCache]. *)
Record ModelInfo : Type := {
  maxTokens : option Z;
  supportsPromptCache : bool
}.

(** The names [Object.prototype] defines: [id in bedrockModels] holds for
    them and [bedrockModels[id]] is the inherited member. *)
Definition Object_prototype_keys : list string :=
  ["constructor"; "__defineGetter__"; "__defineSetter__"; "hasOwnProperty";
   "__lookupGetter__"; "__lookupSetter__"; "isPrototypeOf";
   "propertyIsEnumerable"; "toString"; "valueOf"; "__proto__";
   "toLocaleString"].

(** An inherited member read as a [ModelInfo]: it is a function (or the
    prototype itself) and has neither field. *)
Definition inherited_member : ModelInfo :=
  {| maxTokens := None; supportsPromptCache := false |}.

(** The result of [getModel]: [{ id, info }].  [model_info] is [None] when
    the catalog lookup gives [undefined]. *)
Record ModelConfig : Type := {
  model_id : string;
  model_info : option ModelInfo
}.

(** [ApiHandlerOptions], the fields the handler reads. *)
Record ApiHandlerOptions : Type := {
  apiModelId : option string;
  awsAccessKey : option string;
  awsSecretKey : option string;
  awsSessionToken : option string;
  awsRegion : option string;
  awsUseCrossRegionInference : option bool;
  useBedrockRuntime : option bool
}.

(** [Anthropic.Messages.MessageParam]: the content is a string or an array
    of blocks. *)
Inductive MessageContent : Type :=
| ContentString (s : string)
| ContentBlocks (blocks : list value).

Record MessageParam : Type := {
  role : string;
  content : MessageContent
}.

Record InvokeModelWithResponseStreamCommand : Type := {
  modelId : string;
  contentType : string;
  accept : string;
  body : value
}.

Definition nonempty (s : string) : bool := truthy (JStr s).

Section Handler.

(** The catalog and the default id of [shared/api], and the transport
    [this.client.send]. *)
Variable bedrockModels : gmap string ModelInfo.
Variable bedrockDefaultModelId : string.
Variable send :
  InvokeModelWithResponseStreamCommand -> completion InvokeModelResponse.
Context {runtime : Runtime}.

(** [bedrockModels[id]]: the catalog's own entry, else the member
    [Object.prototype] has under that name, else [undefined]. *)
Definition catalog_read (id : string) : option ModelInfo :=
  match bedrockModels !! id with
  | Some i => Some i
  | None =>
      if existsb (String.eqb id) Object_prototype_keys
      then Some inherited_member
      else None
  end.

(** [id in bedrockModels] *)
Definition in_catalog (id : string) : bool :=
  match bedrockModels !! id with
  | Some _ => true
  | None => existsb (String.eqb id) Object_prototype_keys
  end.

Definition getModel (options : ApiHandlerOptions) : ModelConfig :=
  let fallback := {| model_id := bedrockDefaultModelId;
                     model_info := catalog_read bedrockDefaultModelId |} in
  match apiModelId options with
  | Some modelId =>
      if nonempty modelId && in_catalog modelId then
        {| model_id := modelId; model_info := catalog_read modelId |}
      else fallback
  | None => fallback
  end.

Definition isNovaModel (options : ApiHandlerOptions) : bool :=
  includes (toLowerCase (model_id (getModel options))) "nova".

Definition shouldUseRuntime (options : ApiHandlerOptions) : bool :=
  let modelId :=
    match apiModelId options with
    | Some requested =>
        if nonempty (toLowerCase requested) then toLowerCase requested
        else bedrockDefaultModelId
    | None => bedrockDefaultModelId
    end in
  includes modelId "nova" || bool_decide (useBedrockRuntime options = Some true).

(** Lines 25-30: the cross-region prefix. *)
Definition routedModelId (options : ApiHandlerOptions) : string :=
  let modelId := model_id (getModel options) in
  match awsUseCrossRegionInference options with
  | Some true =>
      let regionPrefix := slice0 3 (default "" (awsRegion options)) in
      if String.eqb regionPrefix "us-" then "us." +:+ modelId
      else if String.eqb regionPrefix "eu-" then "eu." +:+ modelId
      else modelId
  | _ => modelId
  end.

(** [modelConfig.info.k]: reading a field of an [undefined] info throws. *)
Definition info_of (cfg : ModelConfig) (k : string) : completion ModelInfo :=
  match model_info cfg with
  | Some i => Normal i
  | None => Throw (TypeError_read JUndefined k)
  end.

(** The callback of [messages.map]. *)
Definition message_entry (msg : MessageParam) : completion value :=
  text ← match content msg with
         | ContentString s => mret s
         | ContentBlocks blocks => formatContent blocks
         end;
  mret (JObj [("role", JStr (role msg)); ("content", JStr text)]).

(** Lines 33-59: the [prompt] object, as it is in memory. *)
Definition build_prompt (options : ApiHandlerOptions) (systemPrompt : string)
    (messages : list MessageParam) : completion (list (string * value)) :=
  let modelConfig := getModel options in
  entries ← mapM message_entry messages;
  i ← info_of modelConfig "maxTokens";
  let max_tokens :=
    or_else (match maxTokens i with
             | Some n => JNum n
             | None => JUndefined
             end) (JNum 8192) in
  let prompt := [("anthropic_version", JStr "bedrock-2024-02-20");
                 ("messages", JArr entries);
                 ("system", JStr systemPrompt);
                 ("max_tokens", max_tokens);
                 ("temperature", JNum 0)] in
  if isNovaModel options then
    i' ← info_of modelConfig "supportsPromptCache";
    mret (Object_assign prompt
            [("cache_control",
               if supportsPromptCache i' then
                 JObj [("enable_prompt_caching", JBool true);
                       ("prompt_routing", JObj [("enable_routing", JBool true);
                                                ("temperature", JNum 0)])]
               else JUndefined);
             ("nova_config", JObj [("optimized_response", JBool true);
                                   ("context_adaptation", JBool true)])])
  else mret prompt.

(** Lines 61-66: the command handed to the transport. *)
Definition build_command (options : ApiHandlerOptions) (systemPrompt : string)
    (messages : list MessageParam)
  : completion InvokeModelWithResponseStreamCommand :=
  prompt ← build_prompt options systemPrompt messages;
  mret {| modelId := routedModelId options;
          contentType := "application/json";
          accept := "application/json";
          body := SerializeJSON (JObj prompt) |}.

(** The generator [createMessage]: an error while the request is built is
    thrown outside the [try] and reaches the caller as it is. *)
Definition createMessage (options : ApiHandlerOptions) (systemPrompt : string)
    (messages : list MessageParam) : Gen unit :=
  command ← eval (build_command options systemPrompt messages);
  consume (send command).

End Handler.

(** A property is present in a JSON object. *)
Definition has_field (v : value) (k : string) : Prop :=
  match v with
  | JObj props => is_Some (own props k)
  | _ => False
  end.

(** ** The decoder as the specification words it *)

Definition frame_tag (data : value) : value := prop data "type".
Definition start_usage (data : value) : value :=
  get_opt (prop data "message") "usage".
Definition delta_text (data : value) : value :=
  get_opt (prop data "delta") "text".
Definition delta_output_tokens (data : value) : value :=
  get_opt (prop data "usage") "output_tokens".

(** The four-tag state machine: the events of one frame and the state after it. *)
Definition frame_step (st : DecoderState) (data : value)
  : list ApiStreamChunk * DecoderState :=
  if is_string (frame_tag data) "message_start" then
    if truthy (start_usage data) then
      let i := or_else (prop (start_usage data) "input_tokens") (JNum 0) in
      let o := or_else (prop (start_usage data) "output_tokens") (JNum 0) in
      ([ApiStreamUsage i o],
       {| hasStarted := hasStarted st; inputTokens := i; outputTokens := o |})
    else ([], st)
  else if is_string (frame_tag data) "content_block_delta" then
    if truthy (delta_text data) then
      ([ApiStreamText (delta_text data)],
       {| hasStarted := true; inputTokens := inputTokens st;
          outputTokens := outputTokens st |})
    else ([], st)
  else if is_string (frame_tag data) "message_delta" then
    if truthy (delta_output_tokens data) then
      ([ApiStreamUsage (inputTokens st) (delta_output_tokens data)],
       {| hasStarted := hasStarted st; inputTokens := inputTokens st;
          outputTokens := delta_output_tokens data |})
    else ([], st)
  else if is_string (frame_tag data) "message_stop" then
    ([ApiStreamUsage (inputTokens st) (outputTokens st)], st)
  else ([], st).

(** A frame that sets [hasStarted]: a [content_block_delta] with truthy text. *)
Definition carries_text (data : value) : bool :=
  is_string (frame_tag data) "content_block_delta" && truthy (delta_text data).

(** A chunk the loop passes without throwing and without text: an event
    without bytes, or a frame other than [null] that carries no text. *)
Definition silent (chunk : ResponseChunk) : bool :=
  match chunk with
  | NoBytes => true
  | Bytes (Normal data) => negb (nullish data) && negb (carries_text data)
  | Bytes (Throw _) => false
  end.

Definition is_text (c : ApiStreamChunk) : bool :=
  match c with
  | ApiStreamText _ => true
  | ApiStreamUsage _ _ => false
  end.

(** The decoder state after each iteration of the loop, up to the first
    iteration that throws. *)
Fixpoint states (st : DecoderState) (cs : list ResponseChunk)
  : list DecoderState :=
  match cs with
  | [] => []
  | chunk :: rest =>
      match outcome (on_chunk st chunk) with
      | Normal st' => st' :: states st' rest
      | Throw _ => []
      end
  end.

(** What a chunk reports for the input and for the output count. *)
Definition reported_input (chunk : ResponseChunk) : option value :=
  match chunk with
  | Bytes (Normal data) =>
      if is_string (frame_tag data) "message_start" && truthy (start_usage data)
      then Some (or_else (prop (start_usage data) "input_tokens") (JNum 0))
      else None
  | _ => None
  end.

Definition reported_output (chunk : ResponseChunk) : option value :=
  match chunk with
  | Bytes (Normal data) =>
      if is_string (frame_tag data) "message_start" && truthy (start_usage data)
      then Some (or_else (prop (start_usage data) "output_tokens") (JNum 0))
      else if is_string (frame_tag data) "message_delta"
              && truthy (delta_output_tokens data)
      then Some (delta_output_tokens data)
      else None
  | _ => None
  end.

(** The most recent report, [v] when there is none. *)
Definition latest (v : value) (reports : list (option value)) : value :=
  fold_left (fun acc r => default acc r) reports v.

(** Both counts are numbers and neither decreases from [s] to [s']. *)
Definition counts_le (s s' : DecoderState) : Prop :=
  match inputTokens s, inputTokens s', outputTokens s, outputTokens s' with
  | JNum i, JNum i', JNum o, JNum o' => i <= i' /\ o <= o'
  | _, _, _, _ => False
  end.

Definition nondecreasing (sts : list DecoderState) : Prop :=
  forall (i j : nat) (s s' : DecoderState),
    (i <= j)%nat -> sts !! i = Some s -> sts !! j = Some s' -> counts_le s s'.

(** A chunk the loop body handles without throwing: its bytes decode to a
    value other than [null]. *)
Definition well_decoded (chunk : ResponseChunk) : bool :=
  match chunk with
  | NoBytes => true
  | Bytes (Normal data) => negb (nullish data)
  | Bytes (Throw _) => false
  end.

Definition error_text (e : Error) : ApiStreamChunk :=
  ApiStreamText (JStr ("Error: " +:+ message e)).
Definition zero_usage : ApiStreamChunk := ApiStreamUsage (JNum 0) (JNum 0).

(** A small catalog, options and transports to run the handler on. *)
Definition sample_models : gmap string ModelInfo :=
  <["amazon.nova-lite-v1:0" := {| maxTokens := Some 5000;
                                  supportsPromptCache := false |}]>
  (<["anthropic.claude-3-5-sonnet-20241022-v2:0" :=
       {| maxTokens := Some 8192; supportsPromptCache := true |}]> ∅).
Definition sample_default : string := "anthropic.claude-3-5-sonnet-20241022-v2:0".
Definition sample_options (requested : option string) : ApiHandlerOptions :=
  {| apiModelId := requested; awsAccessKey := None; awsSecretKey := None;
     awsSessionToken := None; awsRegion := Some "us-east-1";
     awsUseCrossRegionInference := None; useBedrockRuntime := None |}.
Definition sample_messages : list MessageParam :=
  [{| role := "user"; content := ContentString "hello" |}].
Definition no_body (_ : InvokeModelWithResponseStreamCommand)
  : completion InvokeModelResponse :=
  Normal {| response_body := None |}.

(** A chunk whose frame, if it is a [content_block_delta], has the empty
    string as its delta text. *)
Definition empty_text_only (chunk : ResponseChunk) : bool :=
  match chunk with
  | NoBytes => true
  | Bytes (Normal data) =>
      negb (nullish data)
      && (if is_string (frame_tag data) "content_block_delta"
          then is_string (delta_text data) ""
          else true)
  | Bytes (Throw _) => false
  end.

(** ** The formatter and the selection predicate as the specification words them *)

(** The tagged content blocks of the data model; the text, the source
    reference and the tool name are strings. *)
Inductive ContentBlock : Type :=
| Text (text : string)
| Image (source : string)
| ToolUse (name : string)
| UnknownTag.

(** The run-time object [block] is the content block [b]. *)
Definition represents (b : ContentBlock) (block : value) : Prop :=
  nullish block = false /\
  match b with
  | Text s =>
      is_string (prop block "type") "text" = true /\ prop block "text" = JStr s
  | Image source =>
      is_string (prop block "type") "image" = true
      /\ prop block "source" = JStr source
  | ToolUse name =>
      is_string (prop block "type") "tool_use" = true
      /\ prop block "name" = JStr name
  | UnknownTag =>
      is_string (prop block "type") "text" = false
      /\ is_string (prop block "type") "image" = false
      /\ is_string (prop block "type") "tool_use" = false
  end.

(** The fragment of one block. *)
Definition fragment (b : ContentBlock) : string :=
  match b with
  | Text s => s
  | Image source => "[Image: " +:+ source +:+ "]"
  | ToolUse name => "[Tool: " +:+ name +:+ "]"
  | UnknownTag => "[Unknown Block]"
  end.

(** Some part of [s] equals [sub] when case is ignored. *)
Definition contains_ci (s sub : string) : Prop :=
  exists pre mid post,
    s = pre +:+ mid +:+ post /\ toLowerCase mid = toLowerCase sub.

(** The requested model id, the default one when none (or "") is requested. *)
Definition requested_or_default (bedrockDefaultModelId : string)
    (options : ApiHandlerOptions) : string :=
  match apiModelId options with
  | Some requested => if nonempty requested then requested else bedrockDefaultModelId
  | None => bedrockDefaultModelId
  end.

Definition is_JStr (v : value) : bool :=
  match v with
  | JStr _ => true
  | _ => false
  end.

(** A block of the data model, decided: an object whose text, source or
    name (the one its tag calls for) is a string. *)
Definition data_block (block : value) : bool :=
  negb (nullish block)
  && (if is_string (prop block "type") "text" then is_JStr (prop block "text")
      else if is_string (prop block "type") "image"
      then is_JStr (prop block "source")
      else if is_string (prop block "type") "tool_use"
      then is_JStr (prop block "name")
      else true).

(** A message of the data model: a string, or blocks of the data model. *)
Definition well_formed_message (msg : MessageParam) : bool :=
  match content msg with
  | ContentString _ => true
  | ContentBlocks blocks => forallb data_block blocks
  end.

(** ** Further notions for the properties of the whole handler *)

(** The chunk is a frame that carries text. *)
Definition chunk_carries_text (chunk : ResponseChunk) : bool :=
  match chunk with
  | Bytes (Normal data) => carries_text data
  | _ => false
  end.

(** The text a chunk hands on, if any. *)
Definition chunk_text (chunk : ResponseChunk) : option value :=
  match chunk with
  | Bytes (Normal data) =>
      if carries_text data then Some (delta_text data) else None
  | _ => None
  end.

(** The error the loop body throws on a chunk: the one of [JSON.parse], or
    the TypeError of [data.type] when the bytes decode to [null]. *)
Definition chunk_error (chunk : ResponseChunk) : option Error :=
  match chunk with
  | NoBytes => None
  | Bytes (Throw e) => Some e
  | Bytes (Normal data) =>
      if nullish data then Some (TypeError_read data "type") else None
  end.

(** A frame the [switch] acts on: a recognized tag together with the
    payload field its branch tests. *)
Definition recognized (data : value) : bool :=
  (is_string (frame_tag data) "message_start" && truthy (start_usage data))
  || carries_text data
  || (is_string (frame_tag data) "message_delta"
      && truthy (delta_output_tokens data))
  || is_string (frame_tag data) "message_stop".

(** A chunk the loop passes over: no bytes, or a frame that is not
    recognized. *)
Definition passed_over (chunk : ResponseChunk) : bool :=
  match chunk with
  | NoBytes => true
  | Bytes (Normal data) => negb (nullish data) && negb (recognized data)
  | Bytes (Throw _) => false
  end.

(** The constructor (lines 11-21): the configuration it hands to
    [new BedrockRuntimeClient]. *)
Record AwsCredentials : Type := {
  accessKeyId : string;
  secretAccessKey : string;
  sessionToken : option string
}.

Record BedrockRuntimeClientConfig : Type := {
  credentials : option AwsCredentials;
  region : string
}.

(** [o || d] for an optional string. *)
Definition string_or (o : option string) (d : string) : string :=
  match o with
  | Some s => if nonempty s then s else d
  | None => d
  end.

Definition BedrockRuntimeClient_config (options : ApiHandlerOptions)
  : BedrockRuntimeClientConfig :=
  {| credentials :=
       match awsAccessKey options with
       | Some key =>
           if nonempty key then
             Some {| accessKeyId := key;
                     secretAccessKey := string_or (awsSecretKey options) "";
                     sessionToken := awsSessionToken options |}
           else None
       | None => None
       end;
     region := string_or (awsRegion options) "us-east-1" |}.

(** The options with another requested model id. *)
Definition requesting (options : ApiHandlerOptions) (modelId : string)
  : ApiHandlerOptions :=
  {| apiModelId := Some modelId;
     awsAccessKey := awsAccessKey options;
     awsSecretKey := awsSecretKey options;
     awsSessionToken := awsSessionToken options;
     awsRegion := awsRegion options;
     awsUseCrossRegionInference := awsUseCrossRegionInference options;
     useBedrockRuntime := useBedrockRuntime options |}.

(** [s.startsWith(p)] *)
Definition startsWith (s p : string) : bool := String.prefix p s.

(** The content of a message as the request carries it. *)
Definition message_text {runtime : Runtime} (msg : MessageParam)
  : completion string :=
  match content msg with
  | ContentString s => Normal s
  | ContentBlocks blocks => formatContent blocks
  end.

Definition entry_of (msg : MessageParam) (text : string) : value :=
  JObj [("role", JStr (role msg)); ("content", JStr text)].

(** The five properties every prompt starts with (lines 33-42). *)
Definition base_prompt (systemPrompt : string) (entries : list value)
    (i : ModelInfo) : list (string * value) :=
  [("anthropic_version", JStr "bedrock-2024-02-20");
   ("messages", JArr entries);
   ("system", JStr systemPrompt);
   ("max_tokens", JNum (match maxTokens i with
                        | Some n => if n =? 0 then 8192 else n
                        | None => 8192
                        end));
   ("temperature", JNum 0)].

(** * Properties *)

(** ** JavaScript values *)

Lemma truthy_not_nullish v : truthy v = true -> nullish v = false.
Proof. by destruct v. Qed.

Lemma get_defined v k : nullish v = false -> get v k = Normal (prop v k).
Proof. unfold get. by intros ->. Qed.

Lemma get_opt_truthy v k :
  truthy (get_opt v k) = true -> nullish v = false /\ get_opt v k = prop v k.
Proof.
  unfold get_opt. destruct (nullish v) eqn:E; [discriminate | done].
Qed.

Lemma is_string_object v s : is_string (prop v "type") s = true -> nullish v = false.
Proof. by destruct v. Qed.

(** ** The loop body *)

Lemma on_frame_nullish st data :
  nullish data = true -> on_frame st data = throw (TypeError_read data "type").
Proof. unfold on_frame, get. by intros ->. Qed.

Lemma Gen_bind_eval_Normal {A B} (a : A) (f : A -> Gen B) :
  eval (Normal a) ≫= f = f a.
Proof. unfold mbind, Gen_bind. cbn. by destruct (f a). Qed.

Lemma Gen_bind_Normal {A B} evs (a : A) (f : A -> Gen B) :
  mkGen evs (Normal a) ≫= f = mkGen (evs ++ yielded (f a)) (outcome (f a)).
Proof. reflexivity. Qed.

Lemma completion_bind_Normal {A B} (a : A) (f : A -> completion B) :
  Normal a ≫= f = f a.
Proof. reflexivity. Qed.

(** On a frame other than [null] the loop body is the four-tag state machine. *)
Lemma on_frame_step st data :
  nullish data = false ->
  on_frame st data = mkGen (frame_step st data).1 (Normal (frame_step st data).2).
Proof.
  intros Hd. unfold on_frame, frame_step, frame_tag, start_usage, delta_text,
    delta_output_tokens.
  cbn [get_path]. rewrite !(get_defined data), !completion_bind_Normal by done.
  rewrite !Gen_bind_eval_Normal.
  destruct (is_string (prop data "type") "message_start").
  { destruct (truthy (get_opt _ "usage")) eqn:E; [|done].
    pose proof (truthy_not_nullish _ E) as Hu.
    apply get_opt_truthy in E as [Hm E]. rewrite E in *.
    rewrite !(get_defined (prop data "message")), !completion_bind_Normal by done.
    rewrite !(get_defined (prop _ "usage")), !completion_bind_Normal by done.
    by rewrite !Gen_bind_eval_Normal. }
  destruct (is_string (prop data "type") "content_block_delta").
  { destruct (truthy (get_opt _ "text")) eqn:E; [|done].
    apply get_opt_truthy in E as [Hm E]. rewrite E in *.
    rewrite !(get_defined (prop data "delta")), !completion_bind_Normal by done.
    rewrite !Gen_bind_eval_Normal. by destruct (hasStarted st). }
  destruct (is_string (prop data "type") "message_delta").
  { destruct (truthy (get_opt _ "output_tokens")) eqn:E; [|done].
    apply get_opt_truthy in E as [Hm E]. rewrite E in *.
    rewrite !(get_defined (prop data "usage")), !completion_bind_Normal by done.
    by rewrite !Gen_bind_eval_Normal. }
  by destruct (is_string (prop data "type") "message_stop").
Qed.

Lemma on_chunk_frame st data :
  nullish data = false ->
  on_chunk st (Bytes (Normal data))
  = mkGen (frame_step st data).1 (Normal (frame_step st data).2).
Proof.
  intros Hd. unfold on_chunk. by rewrite Gen_bind_eval_Normal, on_frame_step.
Qed.

(** A frame without text leaves [hasStarted] alone and yields no text. *)
Lemma frame_step_silent st data :
  carries_text data = false ->
  hasStarted (frame_step st data).2 = hasStarted st
  /\ forallb (fun c => negb (is_text c)) (frame_step st data).1 = true.
Proof.
  unfold carries_text, frame_step. intros H.
  destruct (is_string (frame_tag data) "message_start").
  { by destruct (truthy (start_usage data)). }
  destruct (is_string (frame_tag data) "content_block_delta").
  { cbn in H. by rewrite H. }
  destruct (is_string (frame_tag data) "message_delta").
  { by destruct (truthy (delta_output_tokens data)). }
  by destruct (is_string (frame_tag data) "message_stop").
Qed.

Lemma on_chunk_silent st chunk :
  silent chunk = true ->
  exists evs st',
    on_chunk st chunk = mkGen evs (Normal st')
    /\ hasStarted st' = hasStarted st
    /\ forallb (fun c => negb (is_text c)) evs = true.
Proof.
  destruct chunk as [|[data|e]]; cbn [silent]; intros H; [|..|done].
  - by exists [], st.
  - apply andb_true_iff in H as [Hn Ht].
    apply negb_true_iff in Hn, Ht.
    destruct (frame_step_silent st data Ht) as [Hs Hev].
    eexists _, _. split; [by apply on_chunk_frame|done].
Qed.

(** Over silent chunks the loop runs to the end of the stream, never sets
    [hasStarted] and yields no text. *)
Lemma for_await_silent cs : forall st fail,
  forallb silent cs = true ->
  exists evs st',
    for_await st cs None = mkGen evs (Normal st')
    /\ for_await st cs (Some fail) = mkGen evs (Throw fail)
    /\ hasStarted st' = hasStarted st
    /\ forallb (fun c => negb (is_text c)) evs = true.
Proof.
  induction cs as [|chunk cs IH]; intros st fail H.
  - by exists [], st.
  - cbn in H. apply andb_true_iff in H as [Hc Hcs].
    destruct (on_chunk_silent st chunk Hc) as (evs & st1 & E & Hs & Hev).
    destruct (IH st1 fail Hcs) as (evs' & st2 & E1 & E2 & Hs' & Hev').
    exists (evs ++ evs'), st2. cbn [for_await].
    rewrite E, !Gen_bind_Normal, E1, E2. cbn.
    repeat split; [congruence|]. rewrite forallb_app. by rewrite Hev, Hev'.
Qed.

(** What the [try]/[catch] makes of the loop's completion. *)
Lemma consume_loop_Throw cs fail evs e :
  for_await initial cs fail = mkGen evs (Throw e) ->
  consume (streaming cs fail)
  = mkGen (evs ++ [ApiStreamText (JStr ("Error: " +:+ message e));
                   ApiStreamUsage (JNum 0) (JNum 0)]) (Throw e).
Proof.
  intros H. unfold consume, streaming, try_block.
  rewrite Gen_bind_eval_Normal. cbn [response_body chunks failure].
  by rewrite H.
Qed.

Lemma consume_loop_Normal cs fail evs st :
  for_await initial cs fail = mkGen evs (Normal st) ->
  consume (streaming cs fail)
  = if hasStarted st then mkGen evs (Normal tt)
    else mkGen (evs ++ [ApiStreamText (JStr ("Error: " +:+ message NoContentGenerated));
                        ApiStreamUsage (JNum 0) (JNum 0)])
               (Throw NoContentGenerated).
Proof.
  intros H. unfold consume, streaming, try_block.
  rewrite Gen_bind_eval_Normal. cbn [response_body chunks failure].
  rewrite H, Gen_bind_Normal. destruct (hasStarted st); cbn.
  - by rewrite app_nil_r.
  - by rewrite app_nil_r.
Qed.

Lemma or_else_num n : or_else (JNum n) (JNum 0) = JNum n.
Proof.
  unfold or_else, truthy. destruct (Z.eqb_spec n 0) as [->|]; reflexivity.
Qed.

(** Over well-decoded chunks the loop reaches the end of the stream; it then
    returns, or throws the error the stream ends with. *)
Lemma for_await_well_decoded cs : forall st,
  forallb well_decoded cs = true ->
  exists evs st',
    for_await st cs None = mkGen evs (Normal st')
    /\ forall e, for_await st cs (Some e) = mkGen evs (Throw e).
Proof.
  induction cs as [|chunk cs IH]; intros st H.
  - by exists [], st.
  - cbn in H. apply andb_true_iff in H as [Hc Hcs].
    assert (exists evs st1, on_chunk st chunk = mkGen evs (Normal st1))
      as (evs & st1 & E).
    { destruct chunk as [|[data|e]]; [by exists [], st| |done].
      apply negb_true_iff in Hc. eexists _, _. by apply on_chunk_frame. }
    destruct (IH st1 Hcs) as (evs' & st2 & E1 & E2).
    exists (evs ++ evs'), st2. cbn [for_await]. rewrite E.
    split; [by rewrite Gen_bind_Normal, E1|].
    intros e. by rewrite Gen_bind_Normal, E2.
Qed.

(** An error of the stream itself, after chunks that were decoded well, is
    reported and thrown again. *)
Lemma iteration_failure_reported cs e :
  forallb well_decoded cs = true ->
  consume (streaming cs (Some e))
  = mkGen (yielded (for_await initial cs None) ++ [error_text e; zero_usage])
          (Throw e).
Proof.
  intros H. destruct (for_await_well_decoded cs initial H) as (evs & st & E1 & E2).
  rewrite E1. cbn [yielded]. apply consume_loop_Throw, E2.
Qed.

(** ** The claims on the stream decoder *)

(** C1: the frames message_start(usage 10/0), content_block_delta("Hel"),
    content_block_delta("lo"), message_delta(usage out 2), message_stop are
    decoded to exactly Usage(10,0), TextDelta("Hel"), TextDelta("lo"),
    Usage(10,2), Usage(10,2), in this order, and the generator returns. *)
Theorem decode_example_five_events :
  consume (frames [message_start_frame 10 0;
                   content_block_delta_frame "Hel";
                   content_block_delta_frame "lo";
                   message_delta_frame 2;
                   message_stop_frame])
  = mkGen [ApiStreamUsage (JNum 10) (JNum 0);
           ApiStreamText (JStr "Hel");
           ApiStreamText (JStr "lo");
           ApiStreamUsage (JNum 10) (JNum 2);
           ApiStreamUsage (JNum 10) (JNum 2)]
          (Normal tt).
Proof. reflexivity. Qed.

(** C2, as stated, fails: with only message_start and message_stop the
    generator yields a text event (the error text of the catch block)
    before the error reaches the caller. *)
Lemma no_content_error_text_precedes :
  ~ (let g := consume (frames [message_start_frame 10 0; message_stop_frame]) in
     outcome g = Throw NoContentGenerated
     /\ forallb (fun c => negb (is_text c)) (yielded g) = true).
Proof. cbn. intros [_ H]. discriminate H. Qed.

(** C2, amended: a stream without a text-carrying content_block_delta that
    ends normally makes the generator throw NoContentGenerated once the
    stream is exhausted; the events of the frames hold no text, and they
    are followed by the error text and a zero usage of the catch block.
    For message_start (with usage) and message_stop alone the events are
    the two usage events, the error text and the zero usage. *)
Theorem no_content_generated :
  (forall cs, forallb silent cs = true ->
     exists evs,
       consume (streaming cs None)
       = mkGen (evs ++ [error_text NoContentGenerated; zero_usage])
               (Throw NoContentGenerated)
       /\ yielded (for_await initial cs None) = evs
       /\ forallb (fun c => negb (is_text c)) evs = true)
  /\ (forall i o,
        consume (frames [message_start_frame i o; message_stop_frame])
        = mkGen [ApiStreamUsage (JNum i) (JNum o);
                 ApiStreamUsage (JNum i) (JNum o);
                 ApiStreamText (JStr "Error: No content was generated by the model");
                 zero_usage]
                (Throw NoContentGenerated)).
Proof.
  split.
  - intros cs H.
    destruct (for_await_silent cs initial NoContentGenerated H)
      as (evs & st & E & _ & Hs & Hev).
    exists evs. rewrite (consume_loop_Normal _ _ _ _ E), Hs, E. done.
  - intros i o. unfold frames. cbn [map].
    erewrite consume_loop_Normal.
    2:{ cbn [for_await]. rewrite !on_chunk_frame by done.
        rewrite !Gen_bind_Normal. cbn. rewrite !or_else_num. reflexivity. }
    reflexivity.
Qed.

Lemma no_content_generated_witness :
  let cs := [Bytes (Normal (message_start_frame 7 1)); NoBytes;
             Bytes (Normal (content_block_delta_frame ""));
             Bytes (Normal (JStr "ping"));
             Bytes (Normal message_stop_frame)] in
  forallb silent cs = true
  /\ exists evs,
       consume (streaming cs None)
       = mkGen (evs ++ [error_text NoContentGenerated; zero_usage])
               (Throw NoContentGenerated)
       /\ yielded (for_await initial cs None) = evs
       /\ forallb (fun c => negb (is_text c)) evs = true.
Proof.
  split; [reflexivity|]. apply (proj1 no_content_generated). reflexivity.
Defined.

(** C4: an error raised while the stream is iterated, after the events
    [evs] of the frames before it, makes the generator yield one text event
    "Error: <message>", then one usage event with both counts 0 whatever
    the counts were, and then throw that same error. *)
Theorem stream_error_reported cs fail evs e :
  for_await initial cs fail = mkGen evs (Throw e) ->
  consume (streaming cs fail)
  = mkGen (evs ++ [ApiStreamText (JStr ("Error: " +:+ message e));
                   ApiStreamUsage (JNum 0) (JNum 0)])
          (Throw e).
Proof. apply consume_loop_Throw. Qed.

Lemma stream_error_reported_witness :
  let cs := [Bytes (Normal (message_start_frame 10 3));
             Bytes (Normal (content_block_delta_frame "Hel"))] in
  let e := new_Error "socket hang up" in
  let evs := [ApiStreamUsage (JNum 10) (JNum 3); ApiStreamText (JStr "Hel")] in
  for_await initial cs (Some e) = mkGen evs (Throw e)
  /\ consume (streaming cs (Some e))
     = mkGen (evs ++ [ApiStreamText (JStr "Error: socket hang up");
                      ApiStreamUsage (JNum 0) (JNum 0)])
             (Throw e).
Proof.
  split; [reflexivity|].
  apply (stream_error_reported _ _
           [ApiStreamUsage (JNum 10) (JNum 3); ApiStreamText (JStr "Hel")]
           (new_Error "socket hang up")).
  reflexivity.
Defined.

(** Once the request is built, [createMessage] is the decoder run on what
    the transport answers. *)
Lemma createMessage_consume {runtime : Runtime}
    (bedrockModels : gmap string ModelInfo) (bedrockDefaultModelId : string)
    (send : InvokeModelWithResponseStreamCommand -> completion InvokeModelResponse)
    options systemPrompt messages command :
  build_command bedrockModels bedrockDefaultModelId options systemPrompt messages
  = Normal command ->
  createMessage bedrockModels bedrockDefaultModelId send options systemPrompt messages
  = consume (send command).
Proof. intros Hc. unfold createMessage. by rewrite Hc, Gen_bind_eval_Normal. Qed.

(** C3, as stated, fails: without a response stream the generator still
    yields events before the error reaches the caller. *)
Lemma no_response_stream_events_precede :
  ~ (let g := createMessage (runtime := decimal_runtime) sample_models
                sample_default no_body (sample_options None) "system"
                sample_messages in
     outcome g = Throw NoResponseStream /\ yielded g = []).
Proof. vm_compute. intros [_ H]. discriminate H. Qed.

(** C3, amended: when the transport answers without a response stream,
    [createMessage] yields the error text "Error: No response stream
    available" and a zero usage, and then throws the NoResponseStream
    error; no other event precedes it. *)
Theorem no_response_stream {runtime : Runtime}
    (bedrockModels : gmap string ModelInfo) (bedrockDefaultModelId : string)
    (send : InvokeModelWithResponseStreamCommand -> completion InvokeModelResponse)
    options systemPrompt messages command :
  build_command bedrockModels bedrockDefaultModelId options systemPrompt messages
  = Normal command ->
  send command = Normal {| response_body := None |} ->
  createMessage bedrockModels bedrockDefaultModelId send options systemPrompt messages
  = mkGen [ApiStreamText (JStr "Error: No response stream available");
           ApiStreamUsage (JNum 0) (JNum 0)]
          (Throw NoResponseStream).
Proof. intros Hc Hs. by rewrite (createMessage_consume _ _ _ _ _ _ _ Hc), Hs. Qed.

Lemma no_response_stream_witness :
  let options := sample_options (Some "amazon.nova-lite-v1:0") in
  (exists command,
     build_command (runtime := decimal_runtime) sample_models sample_default
       options "system" sample_messages
     = Normal command
     /\ no_body command = Normal {| response_body := None |})
  /\ createMessage (runtime := decimal_runtime) sample_models sample_default
       no_body options "system" sample_messages
     = mkGen [ApiStreamText (JStr "Error: No response stream available");
              ApiStreamUsage (JNum 0) (JNum 0)]
             (Throw NoResponseStream).
Proof.
  split.
  - eexists. split; [vm_compute; reflexivity | reflexivity].
  - eapply no_response_stream.
    + vm_compute. reflexivity.
    + reflexivity.
Defined.

Lemma is_string_inj v s1 s2 :
  is_string v s1 = true -> is_string v s2 = true -> s1 = s2.
Proof.
  destruct v; try discriminate. cbn.
  intros H1%String.eqb_eq H2%String.eqb_eq. congruence.
Qed.

Ltac tag_clash :=
  match goal with
  | H1 : is_string ?v ?a = true, H2 : is_string ?v ?b = true |- _ =>
      let X := fresh in
      pose proof (is_string_inj _ _ _ H1 H2) as X; discriminate X
  end.

(** One iteration sets each count to what the chunk reports, and leaves it
    alone when the chunk reports nothing. *)
Lemma on_chunk_counts st chunk st' :
  outcome (on_chunk st chunk) = Normal st' ->
  inputTokens st' = default (inputTokens st) (reported_input chunk)
  /\ outputTokens st' = default (outputTokens st) (reported_output chunk).
Proof.
  destruct chunk as [|[data|e]]; [by intros [= <-]| |done].
  destruct (nullish data) eqn:Hd.
  { unfold on_chunk. by rewrite Gen_bind_eval_Normal, on_frame_nullish. }
  rewrite on_chunk_frame by done. cbn [outcome]. intros [= <-].
  unfold frame_step, reported_input, reported_output.
  destruct (is_string (frame_tag data) "message_start") eqn:E1;
    destruct (is_string (frame_tag data) "content_block_delta") eqn:E2;
    destruct (is_string (frame_tag data) "message_delta") eqn:E3;
    try tag_clash; cbn [andb].
  - by destruct (truthy (start_usage data)).
  - by destruct (truthy (delta_text data)).
  - by destruct (truthy (delta_output_tokens data)).
  - by destruct (is_string (frame_tag data) "message_stop").
Qed.

(** C5, as stated, fails: the output count goes from 5 to 2 when a
    message_delta reports less than the message_start did. *)
Lemma counters_can_decrease :
  ~ nondecreasing (states initial [Bytes (Normal (message_start_frame 10 5));
                                   Bytes (Normal (message_delta_frame 2))]).
Proof.
  intros H.
  specialize (H 0%nat 1%nat _ _ (Nat.le_succ_diag_r 0) eq_refl eq_refl).
  cbn in H. lia.
Qed.

(** C5, amended: after every iteration of the loop each counter equals the
    most recent value the backend reported for it up to that frame (its
    initial value when nothing was reported yet); it is never a sum.
    Nothing makes the counters non-decreasing. *)
Theorem counters_follow_latest_report cs : forall st n s,
  states st cs !! n = Some s ->
  inputTokens s = latest (inputTokens st) (reported_input <$> take (S n) cs)
  /\ outputTokens s = latest (outputTokens st) (reported_output <$> take (S n) cs).
Proof.
  induction cs as [|chunk cs IH]; intros st n s H; [done|].
  cbn [states] in H.
  destruct (outcome (on_chunk st chunk)) as [st1|] eqn:E; [|done].
  destruct (on_chunk_counts _ _ _ E) as [Hi Ho].
  destruct n as [|n].
  - injection H as <-. cbn [take]. rewrite take_0. by rewrite Hi, Ho.
  - cbn in H. destruct (IH st1 n s H) as [Hi' Ho'].
    by rewrite Hi', Ho', Hi, Ho.
Qed.

Lemma counters_follow_latest_report_witness :
  let cs := [Bytes (Normal (message_start_frame 10 5));
             Bytes (Normal (message_delta_frame 2));
             Bytes (Normal message_stop_frame)] in
  let s := {| hasStarted := false; inputTokens := JNum 10;
              outputTokens := JNum 2 |} in
  states initial cs !! 1%nat = Some s
  /\ inputTokens s
     = latest (inputTokens initial) (reported_input <$> take 2 cs)
  /\ outputTokens s
     = latest (outputTokens initial) (reported_output <$> take 2 cs).
Proof.
  split; [reflexivity|].
  apply (counters_follow_latest_report _ initial 1%nat). reflexivity.
Defined.

(** C6, as stated, fails for the count 0: the frame is passed over, the
    state keeps its output count and no event is yielded. *)
Lemma message_delta_zero_is_skipped :
  let st := {| hasStarted := true; inputTokens := JNum 10; outputTokens := JNum 5 |} in
  on_frame st (message_delta_frame 0) = mkGen [] (Normal st)
  /\ on_frame st (message_delta_frame 0)
     <> mkGen [ApiStreamUsage (JNum 10) (JNum 0)]
              (Normal {| hasStarted := true; inputTokens := JNum 10;
                         outputTokens := JNum 0 |}).
Proof. split; [reflexivity | discriminate]. Qed.

(** C6, amended: a message_delta frame whose usage carries a truthy output
    count (a number other than 0) overwrites [outputTokens] with it and
    yields one usage event with the current counts; when the count is
    absent or 0 the state is unchanged and nothing is yielded. *)
Theorem message_delta_overwrites st data :
  is_string (frame_tag data) "message_delta" = true ->
  (truthy (delta_output_tokens data) = true ->
     on_frame st data
     = mkGen [ApiStreamUsage (inputTokens st) (delta_output_tokens data)]
             (Normal {| hasStarted := hasStarted st;
                        inputTokens := inputTokens st;
                        outputTokens := delta_output_tokens data |}))
  /\ (truthy (delta_output_tokens data) = false ->
      on_frame st data = mkGen [] (Normal st))
  /\ (delta_output_tokens data = JNum 0 \/ delta_output_tokens data = JUndefined ->
      on_frame st data = mkGen [] (Normal st)).
Proof.
  intros Ht. pose proof (is_string_object _ _ Ht) as Hd.
  rewrite on_frame_step by done. unfold frame_step.
  destruct (is_string (frame_tag data) "message_start") eqn:E1; [tag_clash|].
  destruct (is_string (frame_tag data) "content_block_delta") eqn:E2; [tag_clash|].
  rewrite Ht. repeat split.
  - by intros ->.
  - by intros ->.
  - by intros [-> | ->].
Qed.

Lemma message_delta_overwrites_witness :
  let st := {| hasStarted := true; inputTokens := JNum 10;
               outputTokens := JNum 5 |} in
  is_string (frame_tag (message_delta_frame 7)) "message_delta" = true
  /\ truthy (delta_output_tokens (message_delta_frame 7)) = true
  /\ on_frame st (message_delta_frame 7)
     = mkGen [ApiStreamUsage (JNum 10) (JNum 7)]
             (Normal {| hasStarted := true; inputTokens := JNum 10;
                        outputTokens := JNum 7 |}).
Proof.
  split; [reflexivity|]. split; [reflexivity|].
  apply (proj1 (message_delta_overwrites
                  {| hasStarted := true; inputTokens := JNum 10;
                     outputTokens := JNum 5 |}
                  (message_delta_frame 7) eq_refl)).
  reflexivity.
Defined.

Lemma empty_text_only_silent chunk : empty_text_only chunk = true -> silent chunk = true.
Proof.
  destruct chunk as [|[data|e]]; [done| |done]. cbn [empty_text_only silent].
  intros [Hd Ht]%andb_true_iff. rewrite Hd. cbn [andb]. apply negb_true_iff.
  unfold carries_text.
  destruct (is_string (frame_tag data) "content_block_delta"); [|done].
  by destruct (delta_text data) as [| | | |[]| |].
Qed.

(** C10: a content_block_delta frame whose delta text is the empty string
    yields nothing and leaves the state (and so [hasStarted]) as it was;
    a stream in which every content_block_delta has empty text therefore
    ends in the NoContentGenerated error. *)
Theorem empty_delta_text_is_skipped :
  (forall st data,
     is_string (frame_tag data) "content_block_delta" = true ->
     delta_text data = JStr "" ->
     on_frame st data = mkGen [] (Normal st))
  /\ (forall cs,
        forallb empty_text_only cs = true ->
        outcome (consume (streaming cs None)) = Throw NoContentGenerated).
Proof.
  split.
  - intros st data Ht Hx. pose proof (is_string_object _ _ Ht) as Hd.
    rewrite on_frame_step by done. unfold frame_step.
    destruct (is_string (frame_tag data) "message_start") eqn:E1; [tag_clash|].
    by rewrite Ht, Hx.
  - intros cs H.
    assert (forallb silent cs = true) as Hs.
    { apply forallb_forall. intros c Hc. apply empty_text_only_silent.
      revert c Hc. by apply forallb_forall. }
    destruct (for_await_silent cs initial NoContentGenerated Hs)
      as (evs & st & E & _ & Hst & _).
    by rewrite (consume_loop_Normal _ _ _ _ E), Hst.
Qed.

Lemma empty_delta_text_is_skipped_witness :
  let data := content_block_delta_frame "" in
  let cs := [Bytes (Normal (message_start_frame 10 0));
             Bytes (Normal (content_block_delta_frame ""));
             Bytes (Normal (content_block_delta_frame ""));
             Bytes (Normal message_stop_frame)] in
  (is_string (frame_tag data) "content_block_delta" = true
   /\ delta_text data = JStr ""
   /\ on_frame initial data = mkGen [] (Normal initial))
  /\ (forallb empty_text_only cs = true
      /\ outcome (consume (streaming cs None)) = Throw NoContentGenerated).
Proof.
  split.
  - split; [reflexivity|]. split; [reflexivity|].
    apply (proj1 empty_delta_text_is_skipped); reflexivity.
  - split; [reflexivity|].
    apply (proj2 empty_delta_text_is_skipped). reflexivity.
Defined.

(** ** Strings *)

Lemma append_nil (s : string) : "" +:+ s = s.
Proof. reflexivity. Qed.

Lemma append_cons (c : ascii) (a b : string) :
  String c a +:+ b = String c (a +:+ b).
Proof. reflexivity. Qed.

Lemma prefix_iff sub s :
  String.prefix sub s = true <-> exists post, s = sub +:+ post.
Proof.
  revert s. induction sub as [|a sub IH]; intros s.
  - split; [intros _; by exists s|]. by destruct s.
  - destruct s as [|b s]; cbn.
    + split; [done|]. by intros [post H].
    + destruct (ascii_dec a b) as [->|Hne].
      * rewrite IH. split; intros [post H]; exists post.
        -- by rewrite append_cons, H.
        -- rewrite append_cons in H. congruence.
      * split; [done|]. intros [post H]. rewrite append_cons in H. congruence.
Qed.

(** [includes] finds exactly the substrings. *)
Lemma includes_iff s sub :
  includes s sub = true <-> exists pre post, s = pre +:+ sub +:+ post.
Proof.
  induction s as [|c s IH]; cbn [includes]; rewrite orb_true_iff, prefix_iff.
  - split.
    + intros [[post H]|H]; [|done]. by exists "", post.
    + intros (pre & post & H). left. destruct pre; [by exists post|done].
  - rewrite IH. split.
    + intros [[post H]|(pre & post & H)].
      * by exists "", post.
      * exists (String c pre), post. by rewrite append_cons, H.
    + intros (pre & post & H). destruct pre as [|c' pre].
      * left. by exists post.
      * right. exists pre, post. rewrite append_cons in H. congruence.
Qed.

Lemma toLowerCase_app a b :
  toLowerCase (a +:+ b) = toLowerCase a +:+ toLowerCase b.
Proof.
  induction a as [|x a IH]; [done|].
  rewrite append_cons. cbn [toLowerCase]. by rewrite append_cons, IH.
Qed.

Lemma toLowerCase_split s : forall a b,
  toLowerCase s = a +:+ b ->
  exists s1 s2, s = s1 +:+ s2 /\ toLowerCase s1 = a /\ toLowerCase s2 = b.
Proof.
  induction s as [|c s IH]; intros a b H.
  - destruct a; [|done]. rewrite append_nil in H. exists "", "". by subst.
  - destruct a as [|x a].
    + exists "", (String c s). by rewrite append_nil in H.
    + rewrite append_cons in H. cbn [toLowerCase] in H. injection H as Hx H.
      destruct (IH _ _ H) as (s1 & s2 & -> & <- & <-).
      exists (String c s1), s2. cbn [toLowerCase]. by rewrite Hx.
Qed.

(** Lower-casing and then searching is a search that ignores case. *)
Lemma includes_toLowerCase s sub :
  includes (toLowerCase s) (toLowerCase sub) = true <-> contains_ci s sub.
Proof.
  rewrite includes_iff. split.
  - intros (pre & post & H).
    apply toLowerCase_split in H as (s1 & s23 & -> & <- & H).
    apply toLowerCase_split in H as (s2 & s3 & -> & H & <-).
    by exists s1, s2, s3.
  - intros (pre & mid & post & -> & H).
    exists (toLowerCase pre), (toLowerCase post).
    by rewrite !toLowerCase_app, H.
Qed.

Lemma nonempty_toLowerCase s : nonempty (toLowerCase s) = nonempty s.
Proof. by destruct s. Qed.

(** ** The selection predicate *)

(** When a model id is requested, the predicate needs no assumption on the
    default id. *)
Lemma shouldUseRuntime_requested bedrockDefaultModelId options requested :
  apiModelId options = Some requested ->
  nonempty requested = true ->
  shouldUseRuntime bedrockDefaultModelId options = true
  <-> contains_ci requested "nova" \/ useBedrockRuntime options = Some true.
Proof.
  intros Hr Hn. unfold shouldUseRuntime.
  rewrite Hr, nonempty_toLowerCase, Hn, orb_true_iff, bool_decide_eq_true.
  by rewrite <- includes_toLowerCase.
Qed.

(** C9: [shouldUseRuntime] is a function of the options alone (and of the
    default id of the catalog, which is written in lower case); it is true
    exactly when the requested model id, or the default one when none is
    requested, contains "nova" with case ignored, or when the
    useBedrockRuntime flag is set. *)
Theorem shouldUseRuntime_iff bedrockDefaultModelId options :
  toLowerCase bedrockDefaultModelId = bedrockDefaultModelId ->
  shouldUseRuntime bedrockDefaultModelId options = true
  <-> contains_ci (requested_or_default bedrockDefaultModelId options) "nova"
      \/ useBedrockRuntime options = Some true.
Proof.
  intros Hd. unfold shouldUseRuntime, requested_or_default.
  rewrite orb_true_iff, bool_decide_eq_true, <- includes_toLowerCase.
  destruct (apiModelId options) as [requested|].
  - rewrite nonempty_toLowerCase.
    destruct (nonempty requested); [done|]. by rewrite Hd.
  - by rewrite Hd.
Qed.

Lemma shouldUseRuntime_iff_witness :
  let options := sample_options (Some "AMAZON.NOVA-LITE-V1") in
  toLowerCase sample_default = sample_default
  /\ (shouldUseRuntime sample_default options = true
      <-> contains_ci (requested_or_default sample_default options) "nova"
          \/ useBedrockRuntime options = Some true).
Proof.
  split; [reflexivity|]. apply shouldUseRuntime_iff. reflexivity.
Defined.

(** The family is recognized whatever the case of the requested id. *)
Example shouldUseRuntime_nova_lower :
  shouldUseRuntime sample_default (sample_options (Some "amazon.nova-lite-v1")) = true.
Proof. reflexivity. Qed.

Example shouldUseRuntime_nova_upper :
  shouldUseRuntime sample_default (sample_options (Some "AMAZON.NOVA-LITE-V1")) = true.
Proof. reflexivity. Qed.

Example shouldUseRuntime_claude :
  shouldUseRuntime sample_default (sample_options (Some "anthropic.claude-3")) = false.
Proof. reflexivity. Qed.
(** ** The content formatter *)

Section Formatter.
Context {runtime : Runtime}.

Lemma mapM_cons_Normal {A B} (f : A -> completion B) x l y k :
  f x = Normal y -> mapM f l = Normal k -> mapM f (x :: l) = Normal (y :: k).
Proof. intros H1 H2. cbn [mapM]. by rewrite H1, completion_bind_Normal, H2. Qed.

Lemma mapM_cons_inv {A B} (f : A -> completion B) x l k :
  mapM f (x :: l) = Normal k ->
  exists y k', f x = Normal y /\ mapM f l = Normal k' /\ k = y :: k'.
Proof.
  cbn [mapM]. destruct (f x) as [y|e]; [|done].
  rewrite completion_bind_Normal. destruct (mapM f l) as [k'|e]; [|done].
  intros [= <-]. by eexists _, _.
Qed.

Lemma mapM_total {A B} (f : A -> completion B) (ok : A -> bool) l :
  (forall x, ok x = true -> exists y, f x = Normal y) ->
  forallb ok l = true -> exists k, mapM f l = Normal k.
Proof.
  intros Hf. induction l as [|x l IH]; [by exists []|].
  cbn [forallb]. intros [Hx Hl]%andb_true_iff.
  destruct (Hf x Hx) as [y Hy]. destruct (IH Hl) as [k Hk].
  exists (y :: k). by apply mapM_cons_Normal.
Qed.

(** The callback gives a block of the data model its fragment. *)
Lemma format_block_fragment b block :
  represents b block -> format_block block = Normal (JStr (fragment b)).
Proof.
  intros [Hd H]. unfold format_block.
  rewrite (get_defined block "type"), completion_bind_Normal by done.
  destruct b as [s|source|name|]; cbn [fragment].
  - destruct H as [Ht Hx]. by rewrite Ht, get_defined, Hx.
  - destruct H as [Ht Hx].
    destruct (is_string (prop block "type") "text") eqn:E; [tag_clash|].
    by rewrite Ht, get_defined, completion_bind_Normal, Hx.
  - destruct H as [Ht Hx].
    destruct (is_string (prop block "type") "text") eqn:E; [tag_clash|].
    destruct (is_string (prop block "type") "image") eqn:E'; [tag_clash|].
    by rewrite Ht, get_defined, completion_bind_Normal, Hx.
  - destruct H as (-> & -> & ->). done.
Qed.

(** [data_block] decides the blocks of the data model. *)
Lemma data_block_represents block :
  data_block block = true -> exists b, represents b block.
Proof.
  unfold data_block, represents. intros [Hd H]%andb_true_iff.
  apply negb_true_iff in Hd.
  destruct (is_string (prop block "type") "text") eqn:E1.
  { destruct (prop block "text") as [| | | |s| |] eqn:Ex; try done.
    by exists (Text s). }
  destruct (is_string (prop block "type") "image") eqn:E2.
  { destruct (prop block "source") as [| | | |s| |] eqn:Ex; try done.
    by exists (Image s). }
  destruct (is_string (prop block "type") "tool_use") eqn:E3.
  { destruct (prop block "name") as [| | | |s| |] eqn:Ex; try done.
    by exists (ToolUse s). }
  by exists UnknownTag.
Qed.

Lemma Array_join_strings sep (l : list string) :
  Array_join sep (JStr <$> l) = Normal (String.concat sep l).
Proof.
  unfold Array_join.
  assert (mapM (fun x => if nullish x then Normal "" else ToString x)
            (JStr <$> l) = Normal l) as ->; [|done].
  induction l as [|x l IH]; [done|]. by apply mapM_cons_Normal.
Qed.

Lemma formatContent_represented blocks content :
  Forall2 represents blocks content ->
  formatContent content = Normal (String.concat " " (fragment <$> blocks)).
Proof.
  intros H. unfold formatContent.
  assert (mapM format_block content = Normal (JStr <$> (fragment <$> blocks))) as ->.
  { induction H as [|b block blocks content Hb _ IH]; [done|].
    apply mapM_cons_Normal; [by apply format_block_fragment | done]. }
  by rewrite completion_bind_Normal, Array_join_strings.
Qed.

Lemma represented_blocks content :
  Forall (fun block => exists b, represents b block) content ->
  exists blocks, Forall2 represents blocks content.
Proof.
  induction 1 as [|block content [b Hb] _ [blocks IH]]; [by exists []|].
  exists (b :: blocks). by constructor.
Qed.

(** The formatter does not throw on blocks of the data model. *)
Lemma formatContent_total content :
  forallb data_block content = true ->
  exists s, formatContent content = Normal s.
Proof.
  intros H.
  destruct (represented_blocks content) as [blocks Hb].
  { induction content as [|block content IH]; [constructor|].
    cbn [forallb] in H. apply andb_true_iff in H as [Hb Hc].
    constructor; [by apply data_block_represents | by apply IH]. }
  eexists. by apply formatContent_represented.
Qed.


End Formatter.


(** ** The request builder *)

Section Request.
Context {runtime : Runtime}.

Lemma message_entry_total msg :
  well_formed_message msg = true -> exists v, message_entry msg = Normal v.
Proof.
  unfold well_formed_message, message_entry.
  destruct (content msg) as [s|blocks]; intros H; [by eexists|].
  destruct (formatContent_total blocks H) as [s ->].
  by eexists.
Qed.

(** What a built command is made of. *)
Lemma build_command_inv bedrockModels bedrockDefaultModelId options systemPrompt
    messages command :
  build_command bedrockModels bedrockDefaultModelId options systemPrompt messages
  = Normal command ->
  exists entries i prompt,
    mapM message_entry messages = Normal entries
    /\ model_info (getModel bedrockModels bedrockDefaultModelId options) = Some i
    /\ prompt =
       (if isNovaModel bedrockModels bedrockDefaultModelId options then
         Object_assign (base_prompt systemPrompt entries i)
           [("cache_control",
              if supportsPromptCache i then
                JObj [("enable_prompt_caching", JBool true);
                      ("prompt_routing", JObj [("enable_routing", JBool true);
                                               ("temperature", JNum 0)])]
              else JUndefined);
            ("nova_config", JObj [("optimized_response", JBool true);
                                  ("context_adaptation", JBool true)])]
       else base_prompt systemPrompt entries i)
    /\ body command = SerializeJSON (JObj prompt)
    /\ modelId command = routedModelId bedrockModels bedrockDefaultModelId options.
Proof.
  unfold build_command, build_prompt, info_of.
  destruct (mapM message_entry messages) as [entries|e]; [|done].
  rewrite completion_bind_Normal.
  destruct (model_info _) as [i|]; [|done].
  rewrite completion_bind_Normal.
  assert (or_else (match maxTokens i with Some n => JNum n | None => JUndefined end)
            (JNum 8192)
          = JNum (match maxTokens i with
                  | Some n => if n =? 0 then 8192 else n
                  | None => 8192
                  end)) as ->.
  { destruct (maxTokens i) as [n|]; unfold or_else; cbn; [|done].
    by destruct (n =? 0). }
  destruct (isNovaModel _ _ _); rewrite ?completion_bind_Normal;
    intros [= <-]; eexists _, _, _; repeat (split; [reflexivity|]); reflexivity.
Qed.

(** The request is built whenever the model has a record and the messages
    are of the data model. *)
Lemma build_command_total bedrockModels bedrockDefaultModelId options systemPrompt
    messages i :
  model_info (getModel bedrockModels bedrockDefaultModelId options) = Some i ->
  forallb well_formed_message messages = true ->
  exists command,
    build_command bedrockModels bedrockDefaultModelId options systemPrompt messages
    = Normal command.
Proof.
  intros Hi Hm.
  destruct (mapM_total message_entry well_formed_message messages
              message_entry_total Hm) as [entries He].
  unfold build_command, build_prompt, info_of. rewrite He, Hi.
  rewrite !completion_bind_Normal.
  destruct (isNovaModel _ _ _); rewrite ?completion_bind_Normal; by eexists.
Qed.

(** C7: for a Nova-family model the body of every request that is built
    has the nova_config block; it has no cache_control field at all when
    the model's record says supportsPromptCache = false (and has one when
    it says true); for any other model the body has neither field.  The
    request is built whenever the model has a record and the messages are
    of the data model. *)
Theorem nova_extension
    (bedrockModels : gmap string ModelInfo) (bedrockDefaultModelId : string)
    options systemPrompt messages :
  (forall command,
     build_command bedrockModels bedrockDefaultModelId options systemPrompt messages
     = Normal command ->
     exists i,
       model_info (getModel bedrockModels bedrockDefaultModelId options) = Some i
       /\ if isNovaModel bedrockModels bedrockDefaultModelId options then
            has_field (body command) "nova_config"
            /\ (supportsPromptCache i = false ->
                ~ has_field (body command) "cache_control")
            /\ (supportsPromptCache i = true ->
                has_field (body command) "cache_control")
          else
            ~ has_field (body command) "cache_control"
            /\ ~ has_field (body command) "nova_config")
  /\ (forall i,
        model_info (getModel bedrockModels bedrockDefaultModelId options) = Some i ->
        forallb well_formed_message messages = true ->
        exists command,
          build_command bedrockModels bedrockDefaultModelId options systemPrompt
            messages
          = Normal command).
Proof.
  split; [|apply build_command_total].
  intros command H.
  apply build_command_inv in H as (entries & i & prompt & _ & Hi & -> & -> & _).
  exists i. split; [done|].
  destruct (isNovaModel _ _ _).
  - destruct (supportsPromptCache i); cbn; by repeat split.
  - cbn. split; by intros [? ?].
Qed.

End Request.

Lemma nova_extension_witness :
  let options := sample_options (Some "amazon.nova-lite-v1:0") in
  let i := {| maxTokens := Some 5000; supportsPromptCache := false |} in
  model_info (getModel sample_models sample_default options) = Some i
  /\ forallb well_formed_message sample_messages = true
  /\ exists command,
       build_command (runtime := decimal_runtime) sample_models sample_default
         options "system" sample_messages
       = Normal command
       /\ isNovaModel sample_models sample_default options = true
       /\ has_field (body command) "nova_config"
       /\ ~ has_field (body command) "cache_control".
Proof.
  intros options i. split; [reflexivity|]. split; [reflexivity|].
  destruct (proj2 (nova_extension (runtime := decimal_runtime) sample_models
                     sample_default options "system" sample_messages)
              {| maxTokens := Some 5000; supportsPromptCache := false |}
              eq_refl eq_refl) as [command Hc].
  exists command. split; [exact Hc|]. split; [reflexivity|].
  destruct (proj1 (nova_extension (runtime := decimal_runtime) sample_models
                     sample_default options "system" sample_messages)
              command Hc) as (i0 & Hi & H).
  change (isNovaModel sample_models sample_default options) with true in H.
  vm_compute in Hi. injection Hi as <-.
  destruct H as (Hn & Hc' & _). split; [done|]. by apply Hc'.
Defined.

(** In memory the prompt of a Nova model without prompt cache does have
    the property, with the value [undefined]; serialization drops it. *)
Lemma prompt_cache_control_undefined :
  (p ← build_prompt (runtime := decimal_runtime) sample_models sample_default
         (sample_options (Some "amazon.nova-lite-v1:0")) "system" sample_messages;
   mret (own p "cache_control"))
  = Normal (Some JUndefined).
Proof. vm_compute. reflexivity. Qed.

(** * Further properties of the handler *)

(** ** Model resolution, routing and the client *)

(** [id in bedrockModels] holds exactly when [bedrockModels[id]] is there. *)
Lemma in_catalog_read (bedrockModels : gmap string ModelInfo) id :
  in_catalog bedrockModels id = true <-> is_Some (catalog_read bedrockModels id).
Proof.
  unfold in_catalog, catalog_read. destruct (bedrockModels !! id); [done|].
  destruct (existsb _ _); [done|]. split; [done|]. by intros [? ?].
Qed.

(** X1: the info [getModel] returns is always what reading the catalog at
    the id it returns gives: the catalog's own entry when it has one,
    else the member of [Object.prototype] of that name, else [undefined].
    The id is the default id, or the requested id and then that id is
    non-empty and [in] the catalog; so [undefined] is only ever returned
    with the default id. *)
Theorem getModel_in_catalog
    (bedrockModels : gmap string ModelInfo) (bedrockDefaultModelId : string)
    options :
  let config := getModel bedrockModels bedrockDefaultModelId options in
  model_info config = catalog_read bedrockModels (model_id config)
  /\ (model_id config = bedrockDefaultModelId
      \/ (apiModelId options = Some (model_id config)
          /\ nonempty (model_id config) = true
          /\ in_catalog bedrockModels (model_id config) = true))
  /\ (forall i, bedrockModels !! model_id config = Some i ->
                model_info config = Some i)
  /\ (model_info config = None -> model_id config = bedrockDefaultModelId).
Proof.
  unfold getModel. cbv zeta.
  destruct (apiModelId options) as [r|].
  - destruct (nonempty r && in_catalog bedrockModels r) eqn:E; cbn [model_id model_info].
    + apply andb_true_iff in E as [Hn Hc].
      repeat split; [by right| |].
      * intros i Hi. unfold catalog_read. by rewrite Hi.
      * intros H. apply in_catalog_read in Hc as [i Hi]. congruence.
    + repeat split; [by left|]. intros i Hi. unfold catalog_read. by rewrite Hi.
  - cbn [model_id model_info].
    repeat split; [by left|]. intros i Hi. unfold catalog_read. by rewrite Hi.
Qed.

(** X2: resolving again with the resolved id as the requested one gives the
    same model: [getModel] is idempotent. *)
Theorem getModel_idempotent
    (bedrockModels : gmap string ModelInfo) (bedrockDefaultModelId : string)
    options :
  getModel bedrockModels bedrockDefaultModelId
    (requesting options
       (model_id (getModel bedrockModels bedrockDefaultModelId options)))
  = getModel bedrockModels bedrockDefaultModelId options.
Proof.
  assert (forall o, apiModelId o = Some bedrockDefaultModelId
                    \/ apiModelId o = None ->
            getModel bedrockModels bedrockDefaultModelId o
            = {| model_id := bedrockDefaultModelId;
                 model_info := catalog_read bedrockModels bedrockDefaultModelId |})
    as Hdefault.
  { intros o [Ho|Ho]; unfold getModel; rewrite Ho; [|done].
    by destruct (nonempty _ && in_catalog _ _). }
  unfold getModel at 2 3.
  destruct (apiModelId options) as [r|].
  - destruct (nonempty r && in_catalog bedrockModels r) eqn:E; cbn [model_id].
    + unfold getModel. cbn [requesting apiModelId]. by rewrite E.
    + apply Hdefault. by left.
  - apply Hdefault. by left.
Qed.

(** [s.slice(0, n) === p] for a [p] of length [n] is [s.startsWith(p)]. *)
Lemma slice0_startsWith s p :
  String.eqb (slice0 (String.length p) s) p = startsWith s p.
Proof.
  unfold slice0, startsWith.
  destruct (String.prefix p s) eqn:E.
  - apply prefix_correct in E. by apply String.eqb_eq.
  - apply String.eqb_neq. intros H. apply prefix_correct in H. congruence.
Qed.

(** X3: the model id sent to the transport is the resolved id with "us."
    in front when cross-region inference is on and the region starts with
    "us-", with "eu." in front when it is on and the region starts with
    "eu-", and the resolved id itself in every other case (routing off, no
    region, another region). *)
Theorem routedModelId_prefix
    (bedrockModels : gmap string ModelInfo) (bedrockDefaultModelId : string)
    options :
  routedModelId bedrockModels bedrockDefaultModelId options
  = (if bool_decide (awsUseCrossRegionInference options = Some true) then
       if startsWith (default "" (awsRegion options)) "us-" then "us."
       else if startsWith (default "" (awsRegion options)) "eu-" then "eu."
       else ""
     else "") +:+ model_id (getModel bedrockModels bedrockDefaultModelId options).
Proof.
  unfold routedModelId.
  destruct (awsUseCrossRegionInference options) as [[]|]; [|done..].
  rewrite bool_decide_eq_true_2 by done.
  rewrite <- !slice0_startsWith. cbn [String.length].
  by repeat destruct (String.eqb _ _).
Qed.

(** X4: the routing prefix never changes the family: the id sent to the
    transport contains "nova" (case ignored) exactly when [isNovaModel]
    holds. *)
Theorem routing_keeps_family
    (bedrockModels : gmap string ModelInfo) (bedrockDefaultModelId : string)
    options :
  includes
    (toLowerCase (routedModelId bedrockModels bedrockDefaultModelId options))
    "nova"
  = isNovaModel bedrockModels bedrockDefaultModelId options.
Proof.
  unfold routedModelId, isNovaModel.
  destruct (awsUseCrossRegionInference options) as [[]|]; [|done..].
  by repeat destruct (String.eqb _ _).
Qed.

Lemma string_or_nonempty o d : nonempty d = true -> nonempty (string_or o d) = true.
Proof.
  intros Hd. unfold string_or. destruct o as [s|]; [|done].
  by destruct (nonempty s) eqn:E.
Qed.

(** X5: the client of the constructor never gets an empty region (it falls
    back to "us-east-1"); it gets credentials exactly when the access key is
    a non-empty string, and then they hold that key, the secret key or ""
    in its place, and the session token as given. *)
Theorem client_config_defaults options :
  nonempty (region (BedrockRuntimeClient_config options)) = true
  /\ (is_Some (credentials (BedrockRuntimeClient_config options))
      <-> exists key, awsAccessKey options = Some key /\ nonempty key = true)
  /\ (forall c, credentials (BedrockRuntimeClient_config options) = Some c ->
        awsAccessKey options = Some (accessKeyId c)
        /\ secretAccessKey c = default "" (awsSecretKey options)
        /\ sessionToken c = awsSessionToken options).
Proof.
  unfold BedrockRuntimeClient_config. cbn [region credentials].
  split; [by apply string_or_nonempty|].
  destruct (awsAccessKey options) as [key|].
  - destruct (nonempty key) eqn:E.
    + split; [split; [by exists key|done]|].
      intros c [= <-]. cbn. split; [done|]. split; [|done].
      unfold string_or. destruct (awsSecretKey options) as [[|]|]; done.
    + split; [|done]. split; [by intros [? ?]|]. intros (k & [= <-] & Hk). congruence.
  - split; [|done]. split; [by intros [? ?]|]. by intros (k & ? & _).
Qed.

Lemma client_config_defaults_witness :
  let options := {| apiModelId := None; awsAccessKey := Some "AKIAEXAMPLE";
                    awsSecretKey := None; awsSessionToken := Some "token";
                    awsRegion := Some ""; awsUseCrossRegionInference := None;
                    useBedrockRuntime := None |} in
  let c := {| accessKeyId := "AKIAEXAMPLE"; secretAccessKey := "";
              sessionToken := Some "token" |} in
  credentials (BedrockRuntimeClient_config options) = Some c
  /\ (awsAccessKey options = Some (accessKeyId c)
      /\ secretAccessKey c = default "" (awsSecretKey options)
      /\ sessionToken c = awsSessionToken options).
Proof.
  intros options c. split; [reflexivity|].
  apply (proj2 (proj2 (client_config_defaults options))). reflexivity.
Defined.

(** X6: when no region (or "") is configured, the client is created for
    "us-east-1" but the model id gets no prefix, also with cross-region
    inference on: the routing looks at the configured region, not at the
    default one. *)
Theorem unset_region_is_not_routed
    (bedrockModels : gmap string ModelInfo) (bedrockDefaultModelId : string)
    options :
  string_or (awsRegion options) "" = "" ->
  region (BedrockRuntimeClient_config options) = "us-east-1"
  /\ routedModelId bedrockModels bedrockDefaultModelId options
     = model_id (getModel bedrockModels bedrockDefaultModelId options).
Proof.
  intros H. unfold BedrockRuntimeClient_config, routedModelId. cbn [region].
  assert (default "" (awsRegion options) = ""
          /\ string_or (awsRegion options) "us-east-1" = "us-east-1") as [-> ->].
  { unfold string_or in *. destruct (awsRegion options) as [[|]|]; done. }
  split; [done|]. by destruct (awsUseCrossRegionInference options) as [[]|].
Qed.

Lemma unset_region_is_not_routed_witness :
  let options := {| apiModelId := Some "amazon.nova-lite-v1:0";
                    awsAccessKey := None; awsSecretKey := None;
                    awsSessionToken := None; awsRegion := None;
                    awsUseCrossRegionInference := Some true;
                    useBedrockRuntime := None |} in
  string_or (awsRegion options) "" = ""
  /\ region (BedrockRuntimeClient_config options) = "us-east-1"
  /\ routedModelId sample_models sample_default options
     = model_id (getModel sample_models sample_default options).
Proof.
  intros options. split; [reflexivity|].
  apply unset_region_is_not_routed. reflexivity.
Defined.

(** X7: when the requested id is in the catalog and the handler takes it
    for a Nova model, [shouldUseRuntime] selects this handler. *)
Theorem nova_model_is_selected
    (bedrockModels : gmap string ModelInfo) (bedrockDefaultModelId : string)
    options requested :
  apiModelId options = Some requested ->
  nonempty requested = true ->
  is_Some (bedrockModels !! requested) ->
  isNovaModel bedrockModels bedrockDefaultModelId options = true ->
  shouldUseRuntime bedrockDefaultModelId options = true.
Proof.
  intros Hr Hn [i Hi]. unfold isNovaModel, getModel, in_catalog, shouldUseRuntime.
  rewrite Hr, Hn, Hi, nonempty_toLowerCase, Hn. cbn [andb model_id].
  by intros ->.
Qed.

Lemma nova_model_is_selected_witness :
  let options := sample_options (Some "amazon.nova-lite-v1:0") in
  (apiModelId options = Some "amazon.nova-lite-v1:0"
   /\ nonempty "amazon.nova-lite-v1:0" = true
   /\ is_Some (sample_models !! "amazon.nova-lite-v1:0")
   /\ isNovaModel sample_models sample_default options = true)
  /\ shouldUseRuntime sample_default options = true.
Proof.
  intros options.
  assert (is_Some (sample_models !! "amazon.nova-lite-v1:0")) as H by by eexists.
  split; [by repeat split|].
  by apply (nova_model_is_selected sample_models sample_default options
              "amazon.nova-lite-v1:0").
Defined.

(** X8: for a requested id that is not [in] the catalog (neither a key of
    its own nor a name of [Object.prototype]), [isNovaModel] is decided by
    the default id (the model that is resolved) while [shouldUseRuntime] is
    decided by the requested id and the flag. *)
Theorem unknown_model_family
    (bedrockModels : gmap string ModelInfo) (bedrockDefaultModelId : string)
    options requested :
  apiModelId options = Some requested ->
  nonempty requested = true ->
  in_catalog bedrockModels requested = false ->
  isNovaModel bedrockModels bedrockDefaultModelId options
  = includes (toLowerCase bedrockDefaultModelId) "nova"
  /\ shouldUseRuntime bedrockDefaultModelId options
     = includes (toLowerCase requested) "nova"
       || bool_decide (useBedrockRuntime options = Some true).
Proof.
  intros Hr Hn Hi. unfold isNovaModel, getModel, shouldUseRuntime.
  by rewrite Hr, Hn, Hi, nonempty_toLowerCase, Hn.
Qed.

Lemma unknown_model_family_witness :
  let models : gmap string ModelInfo :=
    <["amazon.nova-pro-v1:0" := {| maxTokens := Some 5000;
                                   supportsPromptCache := true |}]> ∅ in
  let options := sample_options (Some "anthropic.claude-3") in
  (apiModelId options = Some "anthropic.claude-3"
   /\ nonempty "anthropic.claude-3" = true
   /\ in_catalog models "anthropic.claude-3" = false)
  /\ isNovaModel models "amazon.nova-pro-v1:0" options
     = includes (toLowerCase "amazon.nova-pro-v1:0") "nova"
  /\ shouldUseRuntime "amazon.nova-pro-v1:0" options
     = includes (toLowerCase "anthropic.claude-3") "nova"
       || bool_decide (useBedrockRuntime options = Some true).
Proof.
  intros models options. split; [by repeat split|].
  by apply (unknown_model_family models "amazon.nova-pro-v1:0" options
              "anthropic.claude-3").
Defined.

(** X22: a requested id that names a member of [Object.prototype], such as
    "toString" or "constructor", passes the [in] test although the catalog
    has no such model: [getModel] returns that id with the inherited member
    as its info, which has no maxTokens and no prompt-cache support, and
    the model is not taken for a Nova model. *)
Theorem prototype_key_is_resolved
    (bedrockModels : gmap string ModelInfo) (bedrockDefaultModelId : string)
    options requested :
  apiModelId options = Some requested ->
  In requested Object_prototype_keys ->
  bedrockModels !! requested = None ->
  getModel bedrockModels bedrockDefaultModelId options
  = {| model_id := requested; model_info := Some inherited_member |}
  /\ isNovaModel bedrockModels bedrockDefaultModelId options = false.
Proof.
  intros Hr Hin Hi.
  assert (existsb (String.eqb requested) Object_prototype_keys = true) as He.
  { apply existsb_exists. exists requested. split; [done|]. apply String.eqb_refl. }
  assert (getModel bedrockModels bedrockDefaultModelId options
          = {| model_id := requested; model_info := Some inherited_member |}) as Hg.
  { unfold getModel, in_catalog, catalog_read. rewrite Hr, Hi, He.
    destruct requested; [|done].
    cbn in Hin. repeat (destruct Hin as [Hin|Hin]; [discriminate Hin|]). done. }
  split; [done|]. unfold isNovaModel. rewrite Hg. cbn [model_id].
  cbn in Hin.
  repeat (destruct Hin as [<-|Hin]; [reflexivity|]). done.
Qed.

Lemma prototype_key_is_resolved_witness :
  let options := sample_options (Some "constructor") in
  (apiModelId options = Some "constructor"
   /\ In "constructor" Object_prototype_keys
   /\ sample_models !! "constructor" = None)
  /\ getModel sample_models sample_default options
     = {| model_id := "constructor"; model_info := Some inherited_member |}
  /\ isNovaModel sample_models sample_default options = false.
Proof.
  intros options.
  assert (In "constructor" Object_prototype_keys) as Hin by (cbn; tauto).
  split; [by repeat split|].
  by apply (prototype_key_is_resolved sample_models sample_default options
              "constructor").
Defined.

(** ** More on the content formatter *)

Section FormatterMore.
Context {runtime : Runtime}.

Lemma mapM_app_Throw {A B} (f : A -> completion B) pre x post e :
  (exists k, mapM f pre = Normal k) -> f x = Throw e ->
  mapM f (pre ++ x :: post) = Throw e.
Proof.
  revert e. induction pre as [|p pre IH]; intros e [k Hk] Hx.
  - cbn [app mapM]. by rewrite Hx.
  - apply mapM_cons_inv in Hk as (y & k' & Hp & Hk' & _).
    cbn [app mapM]. rewrite Hp, completion_bind_Normal.
    fold (@mapM completion _ _ A B f). rewrite (IH e); [done|by eexists|done].
Qed.

Lemma mapM_app_Normal {A B} (f : A -> completion B) l1 : forall l2 k1 k2,
  mapM f l1 = Normal k1 -> mapM f l2 = Normal k2 ->
  mapM f (l1 ++ l2) = Normal (k1 ++ k2).
Proof.
  induction l1 as [|x l1 IH]; intros l2 k1 k2 H1 H2.
  - cbn in H1. by injection H1 as <-.
  - apply mapM_cons_inv in H1 as (y & k' & Hx & Hk & ->).
    cbn [app]. apply mapM_cons_Normal; [done|by apply IH].
Qed.

Lemma mapM_length {A B} (f : A -> completion B) l : forall k,
  mapM f l = Normal k -> length k = length l.
Proof.
  induction l as [|x l IH]; intros k H.
  - cbn in H. by injection H as <-.
  - apply mapM_cons_inv in H as (y & k' & _ & Hk & ->). cbn. by rewrite (IH k').
Qed.

Lemma format_block_nullish block :
  nullish block = true -> format_block block = Throw (TypeError_read block "type").
Proof. unfold format_block, get. by intros ->. Qed.

Lemma append_assoc (a b c : string) : (a +:+ b) +:+ c = a +:+ (b +:+ c).
Proof. induction a as [|x a IH]; [done|]. by rewrite !append_cons, IH. Qed.

Lemma concat_app sep (l1 l2 : list string) :
  l1 <> [] -> l2 <> [] ->
  String.concat sep (l1 ++ l2)
  = String.concat sep l1 +:+ sep +:+ String.concat sep l2.
Proof.
  intros H1 H2. induction l1 as [|x l1 IH]; [done|].
  destruct l1 as [|y l1].
  - destruct l2; [done|]. reflexivity.
  - change (String.concat sep ((x :: y :: l1) ++ l2))
      with (x +:+ sep +:+ String.concat sep ((y :: l1) ++ l2)).
    rewrite IH by done.
    change (String.concat sep (x :: y :: l1))
      with (x +:+ sep +:+ String.concat sep (y :: l1)).
    by rewrite !append_assoc.
Qed.

(** What a successful formatting is made of: the fragments of the
    callbacks and their conversions by [join]. *)
Lemma formatContent_inv content s :
  formatContent content = Normal s ->
  exists fragments parts,
    mapM format_block content = Normal fragments
    /\ mapM (fun x => if nullish x then Normal "" else ToString x) fragments
       = Normal parts
    /\ s = String.concat " " parts.
Proof.
  unfold formatContent, Array_join.
  destruct (mapM format_block content) as [fragments|e]; [|done].
  rewrite completion_bind_Normal.
  destruct (mapM _ fragments) as [parts|e] eqn:E; cbn; [|discriminate].
  intros [= <-]. by exists fragments, parts.
Qed.

(** X9: formatting is compositional: for two non-empty arrays of blocks
    that format to [s1] and [s2], their concatenation formats to [s1],
    one space, [s2]. *)
Theorem formatContent_app content1 content2 s1 s2 :
  formatContent content1 = Normal s1 ->
  formatContent content2 = Normal s2 ->
  content1 <> [] -> content2 <> [] ->
  formatContent (content1 ++ content2) = Normal (s1 +:+ " " +:+ s2).
Proof.
  intros (k1 & p1 & H1 & J1 & ->)%formatContent_inv
         (k2 & p2 & H2 & J2 & ->)%formatContent_inv N1 N2.
  unfold formatContent, Array_join.
  rewrite (mapM_app_Normal _ _ _ _ _ H1 H2), completion_bind_Normal.
  rewrite (mapM_app_Normal _ _ _ _ _ J1 J2), completion_bind_Normal.
  cbn [mret completion_ret]. f_equal. apply concat_app.
  - apply mapM_length in H1, J1. destruct p1; [|done].
    destruct k1; [by destruct content1|done].
  - apply mapM_length in H2, J2. destruct p2; [|done].
    destruct k2; [by destruct content2|done].
Qed.

(** X10: a block that is [null] or [undefined] makes [formatContent] throw
    the TypeError of reading its [type], whatever follows it, when the
    callback returns for every block before it. *)
Theorem formatContent_null_block pre block post fragments :
  mapM format_block pre = Normal fragments ->
  nullish block = true ->
  formatContent (pre ++ block :: post) = Throw (TypeError_read block "type").
Proof.
  intros Hpre Hb. unfold formatContent.
  by rewrite (mapM_app_Throw format_block pre block post _
                (ex_intro _ fragments Hpre) (format_block_nullish _ Hb)).
Qed.

(** X11: an image block whose source is an object (as the base64 sources of
    the Anthropic SDK are) never gets its source into the prompt: the block
    is rendered as "[Image: [object Object]]", and when the source has a
    property [toString] of its own the formatter throws the TypeError of
    the failed conversion. *)
Theorem image_object_source_is_lost block props :
  is_string (prop block "type") "image" = true ->
  prop block "source" = JObj props ->
  formatContent [block]
  = match own props "toString" with
    | Some _ => Throw TypeError_primitive
    | None => Normal "[Image: [object Object]]"%string
    end.
Proof.
  intros Ht Hs. pose proof (is_string_object _ _ Ht) as Hd.
  unfold formatContent. cbn [mapM]. unfold format_block.
  rewrite (get_defined block "type"), completion_bind_Normal by done.
  destruct (is_string (prop block "type") "text") eqn:E; [tag_clash|].
  rewrite Ht, get_defined, completion_bind_Normal, Hs by done.
  cbn [ToString]. by destruct (own props "toString").
Qed.

End FormatterMore.

Lemma formatContent_app_witness :
  let content1 := [JObj [("type", JStr "text"); ("text", JStr "see")];
                   JObj [("type", JStr "image"); ("source", JStr "s3://x")]] in
  let content2 := [JObj [("type", JStr "tool_use"); ("name", JStr "search")]] in
  (formatContent (runtime := decimal_runtime) content1 = Normal "see [Image: s3://x]"%string
   /\ formatContent (runtime := decimal_runtime) content2 = Normal "[Tool: search]"%string
   /\ content1 <> [] /\ content2 <> [])
  /\ formatContent (runtime := decimal_runtime) (content1 ++ content2)
     = Normal ("see [Image: s3://x]" +:+ " " +:+ "[Tool: search]").
Proof.
  intros content1 content2. split; [by repeat split|].
  by apply formatContent_app.
Defined.

Lemma formatContent_null_block_witness :
  let pre := [JObj [("type", JStr "text"); ("text", JStr "hi")]] in
  (mapM (format_block (runtime := decimal_runtime)) pre = Normal [JStr "hi"]
   /\ nullish JUndefined = true)
  /\ formatContent (runtime := decimal_runtime)
       (pre ++ JUndefined :: [JObj [("type", JStr "image")]])
     = Throw (TypeError_read JUndefined "type").
Proof.
  intros pre. split; [by split|].
  by apply (formatContent_null_block pre JUndefined _ [JStr "hi"]).
Defined.

Lemma image_object_source_is_lost_witness :
  let props := [("type", JStr "base64"); ("media_type", JStr "image/png");
                ("data", JStr "iVBORw0KGgo=")] in
  let block := JObj [("type", JStr "image"); ("source", JObj props)] in
  (is_string (prop block "type") "image" = true
   /\ prop block "source" = JObj props)
  /\ formatContent (runtime := decimal_runtime) [block]
     = Normal "[Image: [object Object]]"%string.
Proof.
  intros props block. split; [by split|].
  by apply (image_object_source_is_lost block props).
Defined.

(** The same block with a [toString] entry in its source. *)
Example image_source_with_toString :
  formatContent (runtime := decimal_runtime)
    [JObj [("type", JStr "image"); ("source", JObj [("toString", JStr "x")])]]
  = Throw TypeError_primitive.
Proof. reflexivity. Qed.

(** ** More on the request builder *)

Section RequestMore.
Context {runtime : Runtime}.

Lemma message_entry_text msg :
  message_entry msg = t ← message_text msg; mret (entry_of msg t).
Proof. reflexivity. Qed.

(** The entries of [messages.map] pair each message with its text. *)
Lemma entries_texts msgs : forall entries,
  mapM message_entry msgs = Normal entries ->
  exists texts,
    Forall2 (fun m t => message_text m = Normal t) msgs texts
    /\ entries = zip_with entry_of msgs texts.
Proof.
  induction msgs as [|m msgs IH]; intros entries H.
  - cbn in H. injection H as <-. by exists [].
  - apply mapM_cons_inv in H as (y & k' & Hm & Hk & ->).
    rewrite message_entry_text in Hm.
    destruct (message_text m) as [t|e] eqn:Et; [|done].
    injection Hm as <-. destruct (IH _ Hk) as (texts & HF & ->).
    exists (t :: texts). split; [by constructor|done].
Qed.

(** Serialization leaves the entries as they are. *)
Lemma serialize_entries msgs : forall texts,
  map (fun x => match x with JUndefined => JNull | _ => SerializeJSON x end)
      (zip_with entry_of msgs texts)
  = zip_with entry_of msgs texts.
Proof.
  induction msgs as [|m msgs IH]; intros [|t texts]; try done.
  cbn [zip_with map]. by rewrite IH.
Qed.

(** X12: every request that is built carries the version tag
    "bedrock-2024-02-20", the system prompt as given, temperature 0, and as
    max_tokens the model's maxTokens, or 8192 when the model declares none
    or declares 0. *)
Theorem request_envelope bedrockModels bedrockDefaultModelId options systemPrompt
    messages command :
  build_command bedrockModels bedrockDefaultModelId options systemPrompt messages
  = Normal command ->
  prop (body command) "anthropic_version" = JStr "bedrock-2024-02-20"
  /\ prop (body command) "system" = JStr systemPrompt
  /\ prop (body command) "temperature" = JNum 0
  /\ exists i,
       model_info (getModel bedrockModels bedrockDefaultModelId options) = Some i
       /\ prop (body command) "max_tokens"
          = JNum (match maxTokens i with
                  | Some n => if n =? 0 then 8192 else n
                  | None => 8192
                  end).
Proof.
  intros H. apply build_command_inv in H
    as (entries & i & prompt & _ & Hi & -> & -> & _).
  destruct (isNovaModel _ _ _); [destruct (supportsPromptCache i)|];
    (repeat split; [..|exists i; by split]); reflexivity.
Qed.

(** X13: the messages of the request are the given messages in the same
    order and number, each with its role and with its content as a string:
    a string content as it is, an array of blocks as [formatContent] renders
    it. *)
Theorem request_messages bedrockModels bedrockDefaultModelId options systemPrompt
    messages command :
  build_command bedrockModels bedrockDefaultModelId options systemPrompt messages
  = Normal command ->
  exists texts,
    Forall2 (fun m t => message_text m = Normal t) messages texts
    /\ prop (body command) "messages" = JArr (zip_with entry_of messages texts).
Proof.
  intros H. apply build_command_inv in H
    as (entries & i & prompt & He & Hi & -> & -> & _).
  destruct (entries_texts _ _ He) as (texts & HF & ->).
  exists texts. split; [done|].
  destruct (isNovaModel _ _ _); [destruct (supportsPromptCache i)|];
    cbn; by rewrite serialize_entries.
Qed.

Lemma message_entry_null_block msg pre block post fragments :
  content msg = ContentBlocks (pre ++ block :: post) ->
  mapM format_block pre = Normal fragments ->
  nullish block = true ->
  message_entry msg = Throw (TypeError_read block "type").
Proof.
  intros Hc Hpre Hb. unfold message_entry. rewrite Hc.
  unfold formatContent.
  by rewrite (mapM_app_Throw format_block pre block post _
                (ex_intro _ fragments Hpre) (format_block_nullish _ Hb)).
Qed.

(** X14: a message with a [null] or [undefined] block makes [createMessage]
    throw the TypeError without yielding anything and whatever the
    transport would answer, when the messages before it and the blocks
    before it are flattened without an error: the request is built outside
    the [try], so no error text and no usage event announce this failure. *)
Theorem null_block_fails_before_send
    (bedrockModels : gmap string ModelInfo) (bedrockDefaultModelId : string)
    (send : InvokeModelWithResponseStreamCommand -> completion InvokeModelResponse)
    options systemPrompt before msg after pre block post entries fragments :
  mapM message_entry before = Normal entries ->
  content msg = ContentBlocks (pre ++ block :: post) ->
  mapM format_block pre = Normal fragments ->
  nullish block = true ->
  createMessage bedrockModels bedrockDefaultModelId send options systemPrompt
    (before ++ msg :: after)
  = mkGen [] (Throw (TypeError_read block "type")).
Proof.
  intros Hbefore Hc Hpre Hb. unfold createMessage, build_command, build_prompt.
  rewrite (mapM_app_Throw message_entry before msg after _
             (ex_intro _ entries Hbefore)
             (message_entry_null_block _ _ _ _ _ Hc Hpre Hb)).
  reflexivity.
Qed.

(** X15: when neither the requested id nor the default id is [in] the
    catalog (as a key of its own or as a name of [Object.prototype]),
    [createMessage] throws the TypeError of reading [maxTokens] of
    [undefined], without yielding anything and whatever the transport would
    answer, once the messages are flattened without an error. *)
Theorem missing_catalog_entry_fails_before_send
    (bedrockModels : gmap string ModelInfo) (bedrockDefaultModelId : string)
    (send : InvokeModelWithResponseStreamCommand -> completion InvokeModelResponse)
    options systemPrompt messages entries :
  catalog_read bedrockModels bedrockDefaultModelId = None ->
  (forall requested, apiModelId options = Some requested ->
                     in_catalog bedrockModels requested = false) ->
  mapM message_entry messages = Normal entries ->
  createMessage bedrockModels bedrockDefaultModelId send options systemPrompt messages
  = mkGen [] (Throw (new_Error
                "Cannot read properties of undefined (reading 'maxTokens')")).
Proof.
  intros Hd Hr He.
  assert (model_info (getModel bedrockModels bedrockDefaultModelId options) = None)
    as Hi.
  { unfold getModel. destruct (apiModelId options) as [r|]; [|done].
    by rewrite (Hr r eq_refl), andb_false_r. }
  unfold createMessage, build_command, build_prompt, info_of.
  by rewrite He, Hi.
Qed.

End RequestMore.

Lemma request_envelope_witness :
  let models : gmap string ModelInfo :=
    <["amazon.nova-micro-v1:0" := {| maxTokens := Some 0;
                                     supportsPromptCache := false |}]> ∅ in
  let options := sample_options (Some "amazon.nova-micro-v1:0") in
  exists command,
    build_command (runtime := decimal_runtime) models sample_default options "be brief"
      sample_messages
    = Normal command
    /\ prop (body command) "anthropic_version" = JStr "bedrock-2024-02-20"
    /\ prop (body command) "system" = JStr "be brief"
    /\ prop (body command) "temperature" = JNum 0
    /\ prop (body command) "max_tokens" = JNum 8192.
Proof.
  intros models options.
  destruct (build_command (runtime := decimal_runtime) models sample_default
              options "be brief" sample_messages)
    as [command|] eqn:E; [|vm_compute in E; discriminate E].
  exists command. split; [reflexivity|].
  destruct (request_envelope (runtime := decimal_runtime) models sample_default options "be brief"
              sample_messages command E) as (H1 & H2 & H3 & i & Hi & Hm).
  vm_compute in Hi. injection Hi as <-. by repeat split.
Defined.

Lemma request_messages_witness :
  let messages :=
    [{| role := "user"; content := ContentString "hello" |};
     {| role := "assistant";
        content := ContentBlocks [JObj [("type", JStr "text"); ("text", JStr "hi")];
                                  JObj [("type", JStr "tool_use");
                                        ("name", JStr "search")]] |}] in
  exists command,
    build_command (runtime := decimal_runtime) sample_models sample_default
      (sample_options None) "system" messages
    = Normal command
    /\ exists texts,
         Forall2 (fun m t => message_text (runtime := decimal_runtime) m = Normal t) messages texts
         /\ prop (body command) "messages" = JArr (zip_with entry_of messages texts).
Proof.
  intros messages.
  destruct (build_command (runtime := decimal_runtime) sample_models
              sample_default (sample_options None) "system" messages) as [command|] eqn:E;
    [|vm_compute in E; discriminate E].
  exists command. split; [reflexivity|].
  exact (request_messages (runtime := decimal_runtime) _ _ _ _ _ _ E).
Defined.

Lemma null_block_fails_before_send_witness :
  let pre := [JObj [("type", JStr "text"); ("text", JStr "hi")]] in
  let msg := {| role := "user"; content := ContentBlocks (pre ++ JNull :: []) |} in
  let entries := [JObj [("role", JStr "user"); ("content", JStr "hello")]] in
  (mapM (message_entry (runtime := decimal_runtime)) sample_messages
   = Normal entries
   /\ mapM (format_block (runtime := decimal_runtime)) pre = Normal [JStr "hi"]
   /\ nullish JNull = true)
  /\ createMessage (runtime := decimal_runtime) sample_models sample_default
       no_body (sample_options None) "system" (sample_messages ++ msg :: [])
     = mkGen [] (Throw (TypeError_read JNull "type")).
Proof.
  intros pre msg entries. split; [by repeat split|].
  by apply (null_block_fails_before_send _ _ _ _ _ sample_messages msg [] pre
              JNull [] entries [JStr "hi"]).
Defined.

Lemma missing_catalog_entry_fails_before_send_witness :
  let models : gmap string ModelInfo := ∅ in
  let entries := [JObj [("role", JStr "user"); ("content", JStr "hello")]] in
  (catalog_read models sample_default = None
   /\ in_catalog models "amazon.nova-lite-v1:0" = false
   /\ mapM (message_entry (runtime := decimal_runtime)) sample_messages
      = Normal entries)
  /\ createMessage (runtime := decimal_runtime) models sample_default no_body
       (sample_options (Some "amazon.nova-lite-v1:0")) "system" sample_messages
     = mkGen [] (Throw (new_Error
                   "Cannot read properties of undefined (reading 'maxTokens')")).
Proof.
  intros models entries. split; [by repeat split|].
  apply (missing_catalog_entry_fails_before_send _ _ _ _ _ _ entries);
    [reflexivity| |reflexivity].
  by intros requested [= <-].
Defined.

(** ** More on the stream decoder *)

Lemma Gen_bind_assoc {A B C} (m : Gen A) (f : A -> Gen B) (g : B -> Gen C) :
  (m ≫= f) ≫= g = m ≫= (fun a => f a ≫= g).
Proof.
  destruct m as [evs [a|e]]; [|reflexivity].
  rewrite !Gen_bind_Normal.
  destruct (f a) as [evs' [b|e]]; cbn.
  - unfold mbind, Gen_bind. cbn. by rewrite app_assoc.
  - reflexivity.
Qed.

Lemma Gen_bind_mret {A B} (a : A) (f : A -> Gen B) : mret a ≫= f = f a.
Proof. apply Gen_bind_eval_Normal. Qed.

(** The loop over a concatenation. *)
Lemma for_await_app cs1 : forall st cs2 fail,
  for_await st (cs1 ++ cs2) fail
  = for_await st cs1 None ≫= (fun st' => for_await st' cs2 fail).
Proof.
  induction cs1 as [|c cs1 IH]; intros st cs2 fail.
  - cbn [app for_await]. by rewrite Gen_bind_mret.
  - cbn [app for_await]. rewrite Gen_bind_assoc.
    destruct (on_chunk st c) as [evs [st1|e]]; [|reflexivity].
    by rewrite !Gen_bind_Normal, IH.
Qed.

(** X16: the loop handles the chunks one after the other: the events of
    [cs1 ++ cs2] are the events of [cs1] followed by the events of [cs2]
    run from the state [cs1] leaves, and the completion is that of [cs2]. *)
Theorem for_await_sequential cs1 cs2 st fail evs st1 :
  for_await st cs1 None = mkGen evs (Normal st1) ->
  for_await st (cs1 ++ cs2) fail
  = mkGen (evs ++ yielded (for_await st1 cs2 fail))
          (outcome (for_await st1 cs2 fail)).
Proof. intros H. by rewrite for_await_app, H, Gen_bind_Normal. Qed.

Lemma for_await_sequential_witness :
  let cs1 := [Bytes (Normal (message_start_frame 10 0));
              Bytes (Normal (content_block_delta_frame "Hel"))] in
  let cs2 := [Bytes (Normal (content_block_delta_frame "lo"));
              Bytes (Normal message_stop_frame)] in
  let evs := [ApiStreamUsage (JNum 10) (JNum 0); ApiStreamText (JStr "Hel")] in
  let st1 := {| hasStarted := true; inputTokens := JNum 10;
                outputTokens := JNum 0 |} in
  for_await initial cs1 None = mkGen evs (Normal st1)
  /\ for_await initial (cs1 ++ cs2) None
     = mkGen (evs ++ yielded (for_await st1 cs2 None))
             (outcome (for_await st1 cs2 None)).
Proof.
  intros cs1 cs2 evs st1. split; [reflexivity|].
  apply for_await_sequential. reflexivity.
Defined.

Lemma on_chunk_passed_over st c : passed_over c = true -> on_chunk st c = mret st.
Proof.
  destruct c as [|[data|e]]; cbn [passed_over]; [done| |done].
  intros [Hd Hr]%andb_true_iff. apply negb_true_iff in Hd, Hr.
  rewrite on_chunk_frame by done. unfold recognized, carries_text in Hr.
  unfold frame_step.
  destruct (is_string (frame_tag data) "message_start");
    [cbn in Hr; destruct (truthy (start_usage data)); [done|] |];
  (destruct (is_string (frame_tag data) "content_block_delta");
    [cbn in Hr; destruct (truthy (delta_text data)); [done|] |]);
  (destruct (is_string (frame_tag data) "message_delta");
    [cbn in Hr; destruct (truthy (delta_output_tokens data)); [done|] |]);
  (destruct (is_string (frame_tag data) "message_stop"); [done|]); try done.
Qed.

(** X17: events without bytes and frames that are not recognized (another
    tag, or a tag without its payload field) can be taken out of the stream
    without changing the events, the final state or the completion. *)
Theorem passed_over_chunks_are_inert cs : forall st fail,
  for_await st (List.filter (fun c => negb (passed_over c)) cs) fail
  = for_await st cs fail.
Proof.
  induction cs as [|c cs IH]; intros st fail; [done|].
  cbn [List.filter for_await]. destruct (passed_over c) eqn:E; cbn [negb].
  - by rewrite (on_chunk_passed_over _ _ E), Gen_bind_mret.
  - cbn [for_await]. destruct (on_chunk st c) as [evs [st1|e]]; [|done].
    by rewrite !Gen_bind_Normal, IH.
Qed.

Lemma frame_step_texts st data :
  List.filter is_text (frame_step st data).1
  = if carries_text data then [ApiStreamText (delta_text data)] else [].
Proof.
  unfold frame_step, carries_text.
  destruct (is_string (frame_tag data) "message_start") eqn:E1;
    destruct (is_string (frame_tag data) "content_block_delta") eqn:E2;
    try tag_clash; cbn [andb].
  - by destruct (truthy (start_usage data)).
  - by destruct (truthy (delta_text data)).
  - destruct (is_string (frame_tag data) "message_delta").
    + by destruct (truthy (delta_output_tokens data)).
    + by destruct (is_string (frame_tag data) "message_stop").
Qed.

Lemma frame_step_started st data :
  hasStarted (frame_step st data).2 = hasStarted st || carries_text data.
Proof.
  unfold frame_step, carries_text.
  destruct (is_string (frame_tag data) "message_start") eqn:E1;
    destruct (is_string (frame_tag data) "content_block_delta") eqn:E2;
    try tag_clash; cbn [andb].
  - destruct (truthy (start_usage data)); cbn; by rewrite orb_false_r.
  - destruct (truthy (delta_text data)); cbn; by rewrite ?orb_true_r, ?orb_false_r.
  - rewrite orb_false_r. destruct (is_string (frame_tag data) "message_delta").
    + by destruct (truthy (delta_output_tokens data)).
    + by destruct (is_string (frame_tag data) "message_stop").
Qed.

(** What the loop makes of well-decoded chunks. *)
Lemma for_await_summary cs : forall st,
  forallb well_decoded cs = true ->
  exists evs st',
    for_await st cs None = mkGen evs (Normal st')
    /\ (forall e, for_await st cs (Some e) = mkGen evs (Throw e))
    /\ List.filter is_text evs = ApiStreamText <$> omap chunk_text cs
    /\ hasStarted st' = hasStarted st || existsb chunk_carries_text cs.
Proof.
  induction cs as [|c cs IH]; intros st H.
  - exists [], st. by rewrite orb_false_r.
  - cbn [forallb] in H. apply andb_true_iff in H as [Hc Hcs].
    assert (exists evs st1, on_chunk st c = mkGen evs (Normal st1)
              /\ List.filter is_text evs = ApiStreamText <$> option_list (chunk_text c)
              /\ hasStarted st1 = hasStarted st || chunk_carries_text c)
      as (evs & st1 & E & Ht & Hs).
    { destruct c as [|[data|e]]; [|..|done].
      - exists [], st. by rewrite orb_false_r.
      - apply negb_true_iff in Hc. eexists _, _.
        split; [by apply on_chunk_frame|]. split.
        + rewrite frame_step_texts. cbn [chunk_text].
          by destruct (carries_text data).
        + apply frame_step_started. }
    destruct (IH st1 Hcs) as (evs' & st2 & E1 & E2 & Ht' & Hs').
    exists (evs ++ evs'), st2. cbn [for_await]. rewrite E.
    split; [by rewrite Gen_bind_Normal, E1|].
    split; [intros e; by rewrite Gen_bind_Normal, E2|].
    split.
    + rewrite List.filter_app, Ht, Ht'. simpl omap.
      by destruct (chunk_text c).
    + rewrite Hs', Hs. cbn [existsb]. by rewrite orb_assoc.
Qed.

(** X18: the text events of the loop are exactly the delta texts of the
    text-carrying frames, one event per frame, in frame order and
    unchanged. *)
Theorem text_deltas_forwarded cs st fail :
  forallb well_decoded cs = true ->
  List.filter is_text (yielded (for_await st cs fail))
  = ApiStreamText <$> omap chunk_text cs.
Proof.
  intros H. destruct (for_await_summary cs st H) as (evs & st' & E1 & E2 & Ht & _).
  destruct fail as [e|]; by rewrite ?E1, ?E2.
Qed.

Lemma text_deltas_forwarded_witness :
  let cs := [Bytes (Normal (message_start_frame 10 0));
             Bytes (Normal (content_block_delta_frame "Hel"));
             Bytes (Normal (content_block_delta_frame ""));
             Bytes (Normal (content_block_delta_frame "lo"));
             Bytes (Normal message_stop_frame)] in
  forallb well_decoded cs = true
  /\ List.filter is_text (yielded (for_await initial cs None))
     = ApiStreamText <$> omap chunk_text cs.
Proof.
  intros cs. split; [reflexivity|]. by apply text_deltas_forwarded.
Defined.

Lemma on_chunk_error st c e :
  chunk_error c = Some e -> on_chunk st c = throw e.
Proof.
  destruct c as [|[data|e']]; cbn [chunk_error]; [done| |by intros [= ->]].
  destruct (nullish data) eqn:Hd; [|done]. intros [= <-].
  unfold on_chunk. by rewrite Gen_bind_eval_Normal, on_frame_nullish.
Qed.

(** X19: a chunk whose bytes fail to parse, or parse to [null], ends the
    decoding: the events of the chunks before it are followed by the error
    text and the zero usage, the error is thrown, and the chunks after it
    are never looked at. *)
Theorem undecodable_chunk_aborts cs1 c cs2 fail e :
  forallb well_decoded cs1 = true ->
  chunk_error c = Some e ->
  consume (streaming (cs1 ++ c :: cs2) fail)
  = mkGen (yielded (for_await initial cs1 None) ++ [error_text e; zero_usage])
          (Throw e).
Proof.
  intros H1 Hc.
  destruct (for_await_well_decoded cs1 initial H1) as (evs & st & E & _).
  apply consume_loop_Throw.
  rewrite for_await_app, E, Gen_bind_Normal. cbn [for_await yielded].
  rewrite (on_chunk_error _ _ _ Hc). cbn. by rewrite app_nil_r.
Qed.

Lemma undecodable_chunk_aborts_witness :
  let cs1 := [Bytes (Normal (message_start_frame 10 0));
              Bytes (Normal (content_block_delta_frame "Hel"))] in
  let cs2 := [Bytes (Normal (content_block_delta_frame "lo"));
              Bytes (Normal message_stop_frame)] in
  let e := TypeError_read JNull "type" in
  (forallb well_decoded cs1 = true /\ chunk_error (Bytes (Normal JNull)) = Some e)
  /\ consume (streaming (cs1 ++ Bytes (Normal JNull) :: cs2) None)
     = mkGen (yielded (for_await initial cs1 None) ++ [error_text e; zero_usage])
             (Throw e).
Proof.
  intros cs1 cs2 e. split; [by split|].
  by apply undecodable_chunk_aborts.
Defined.

(** X20: over a stream that decodes well and ends normally the generator
    returns normally exactly when some frame carries text, and then it
    yields the events of the frames and nothing else. *)
Theorem succeeds_iff_text cs :
  forallb well_decoded cs = true ->
  (outcome (consume (streaming cs None)) = Normal tt
   <-> existsb chunk_carries_text cs = true)
  /\ (existsb chunk_carries_text cs = true ->
      consume (streaming cs None)
      = mkGen (yielded (for_await initial cs None)) (Normal tt)).
Proof.
  intros H. destruct (for_await_summary cs initial H) as (evs & st' & E & _ & _ & Hs).
  rewrite (consume_loop_Normal _ _ _ _ E), E, Hs. cbn [initial hasStarted orb yielded].
  destruct (existsb chunk_carries_text cs); cbn; split; try done.
Qed.

Lemma succeeds_iff_text_witness :
  let cs := [Bytes (Normal (message_start_frame 10 0));
             Bytes (Normal (content_block_delta_frame "Hel"));
             Bytes (Normal message_stop_frame)] in
  forallb well_decoded cs = true
  /\ existsb chunk_carries_text cs = true
  /\ consume (streaming cs None)
     = mkGen (yielded (for_await initial cs None)) (Normal tt).
Proof.
  intros cs. split; [reflexivity|]. split; [reflexivity|].
  by apply (proj2 (succeeds_iff_text cs eq_refl)).
Defined.

(** X21: whatever the transport answers, when lines 68-145 end by throwing
    [e] the last two events yielded are the text "Error: <message of e>" and
    the usage with both counts 0. *)
Theorem failure_is_announced sent e :
  outcome (consume sent) = Throw e ->
  exists evs, yielded (consume sent) = evs ++ [error_text e; zero_usage].
Proof.
  unfold consume, try_catch.
  destruct (outcome (try_block sent)) as [[]|e'] eqn:E.
  - rewrite E. done.
  - cbn. intros [= ->]. by eexists.
Qed.

Lemma failure_is_announced_witness :
  let sent : completion InvokeModelResponse := Throw (new_Error "ECONNRESET") in
  outcome (consume sent) = Throw (new_Error "ECONNRESET")
  /\ exists evs,
       yielded (consume sent)
       = evs ++ [error_text (new_Error "ECONNRESET"); zero_usage].
Proof.
  intros sent. split; [reflexivity|]. by apply failure_is_announced.
Defined.
